(** * osmium::Timestamp: parser, formatter, ordering and sentinels

    A shallow embedding of [include/osmium/osm/timestamp.hpp].

    - [uint32_t] and [time_t] values are integers of [Z]; every narrowing
      conversion is written out ([to_uint32]).  [time_t] is the 64-bit
      signed type of the platforms the library is built for.
    - A [const char*] argument is the [string] of the characters in front
      of the terminating NUL; reading behind the NUL is outside the array
      and is modelled as [Undefined].
    - A function that can throw returns an [outcome]. *)

From Stdlib Require Import ZArith String Ascii List Bool Lia DecimalString.
Import ListNotations.

Local Open Scope Z_scope.

(** ** Machine integers *)

Definition uint32_max : Z := 4294967295.

(** [static_cast<uint32_t>(z)] and the implicit narrowing to [uint32_t]. *)
Definition to_uint32 (z : Z) : Z := z mod 2 ^ 32.

Definition time_t_min : Z := - 2 ^ 63.
Definition time_t_max : Z := 2 ^ 63 - 1.

Definition int_max : Z := 2147483647.

(** ** Results of calls that may throw *)

Inductive exception : Type :=
| invalid_argument (what : string).

Inductive outcome (A : Type) : Type :=
| Returns (a : A)
| Throws (e : exception)
| Undefined.

Arguments Returns {A} a.
Arguments Throws {A} e.
Arguments Undefined {A}.

Definition bind {A B : Type} (x : outcome A) (k : A -> outcome B) : outcome B :=
  match x with
  | Returns a => k a
  | Throws e => Throws e
  | Undefined => Undefined
  end.

Notation "x <- c ;; k" := (bind c (fun x => k))
  (at level 61, c at next level, right associativity).

(** The built-in [&&]: the right operand is evaluated only when the left
    one is [true]. *)
Definition and_then (a b : outcome bool) : outcome bool :=
  match a with
  | Returns true => b
  | _ => a
  end.

Infix "&&>" := and_then (at level 41, right associativity).

(** ** Characters and NUL-terminated strings *)

Definition NUL : ascii := "000"%char.

Definition code (c : ascii) : Z := Z.of_N (N_of_ascii c).

(** [str[i]]: the characters of [str], then the terminating NUL, then
    nothing that may be read. *)
Fixpoint char_at (str : string) (i : nat) : outcome ascii :=
  match str, i with
  | EmptyString, O => Returns NUL
  | EmptyString, S _ => Undefined
  | String c _, O => Returns c
  | String _ rest, S j => char_at rest j
  end.

Definition is_digit (c : ascii) : bool :=
  (code "0" <=? code c) && (code c <=? code "9").

(** [str[i] >= '0' && str[i] <= '9'] *)
Definition digit_at (str : string) (i : nat) : outcome bool :=
  c <- char_at str i ;; Returns (is_digit c).

(** [str[i] == ch] *)
Definition char_is (str : string) (i : nat) (ch : ascii) : outcome bool :=
  c <- char_at str i ;; Returns (Ascii.eqb c ch).

(** [str[i] - '0'] *)
Definition digit_value (str : string) (i : nat) : outcome Z :=
  c <- char_at str i ;; Returns (code c - code "0").

(** ** The C library: [struct tm], [timegm], [gmtime_r], [strftime] *)

Module CLib.

Record tm : Type := mk_tm {
  tm_sec : Z;
  tm_min : Z;
  tm_hour : Z;
  tm_mday : Z;
  tm_mon : Z;
  tm_year : Z;
  tm_wday : Z;
  tm_yday : Z;
  tm_isdst : Z
}.

Definition isleap (year : Z) : bool :=
  (year mod 4 =? 0) && (negb (year mod 100 =? 0) || (year mod 400 =? 0)).

(** Days of the year in front of each month. *)
Definition mon_yday (leap : bool) : list Z :=
  if leap
  then [0; 31; 60; 91; 121; 152; 182; 213; 244; 274; 305; 335]
  else [0; 31; 59; 90; 120; 151; 181; 212; 243; 273; 304; 334].

Definition leaps_thru_end_of (year : Z) : Z :=
  year / 4 - year / 100 + year / 400.

(** Days from 1970-01-01 to January 1st of [year]. *)
Definition days_before_year (year : Z) : Z :=
  365 * (year - 1970) + leaps_thru_end_of (year - 1) - leaps_thru_end_of 1969.

(** Days from 1970-01-01 to day [mday] of month [mon] (0-based) of
    [year]; [mday] may lie outside the month. *)
Definition days_from_civil (year mon mday : Z) : Z :=
  days_before_year year
  + nth (Z.to_nat mon) (mon_yday (isleap year)) 0
  + (mday - 1).

(** Modelled from the spec: the C library's [timegm], which is not part
    of the repository.  Section 4.1 step 4 describes it as the
    calendar to epoch-seconds transform, UTC only, without daylight
    saving time; section 4.2 requires the transform to be leap-year
    aware.  As in the C library the broken-down time is first brought
    into range (a month outside 0..11 carries into the year; days,
    hours, minutes and seconds count linearly), and [-1] is returned
    when the result is not a [time_t]. *)
Definition timegm (t : tm) : Z :=
  let year := 1900 + tm_year t + tm_mon t / 12 in
  let mon := tm_mon t mod 12 in
  let days := days_from_civil year mon (tm_mday t) in
  let secs := ((days * 24 + tm_hour t) * 60 + tm_min t) * 60 + tm_sec t in
  if (time_t_min <=? secs) && (secs <=? time_t_max) then secs else -1.

(** Year, month (0-based) and day of month of the day that lies [days]
    days after 1970-01-01, by 400-year eras starting on March 1st. *)
Definition civil_from_days (days : Z) : Z * Z * Z :=
  let z := days + 719468 in
  let era := z / 146097 in
  let doe := z - era * 146097 in
  let yoe := (doe - doe / 1460 + doe / 36524 - doe / 146096) / 365 in
  let doy := doe - (365 * yoe + yoe / 4 - yoe / 100) in
  let mp := (5 * doy + 2) / 153 in
  let d := doy - (153 * mp + 2) / 5 + 1 in
  let m := if mp <? 10 then mp + 3 else mp - 9 in
  let y := yoe + era * 400 + (if m <=? 2 then 1 else 0) in
  (y, m - 1, d).

(** Modelled from the spec: the C library's [gmtime_r], which is not
    part of the repository.  Section 4.2 describes it as the conversion
    of the seconds count to a UTC calendar breakdown (year, month, day,
    hour, minute, second) that accounts for leap years.  [None] is the
    null pointer returned when the year does not fit [int]. *)
Definition gmtime_r (t : Z) : option tm :=
  let days := t / 86400 in
  let rem := t mod 86400 in
  let '(y, m, d) := civil_from_days days in
  if (- int_max - 1 <=? y - 1900) && (y - 1900 <=? int_max) then
    Some {| tm_sec := rem mod 60;
            tm_min := (rem / 60) mod 60;
            tm_hour := rem / 3600;
            tm_mday := d;
            tm_mon := m;
            tm_year := y - 1900;
            tm_wday := (4 + days) mod 7;
            tm_yday := days - days_before_year y;
            tm_isdst := 0 |}
  else None.

Definition digit_char (d : Z) : ascii := ascii_of_N (Z.to_N (code "0" + d)).

(** A number of at most two digits, zero-padded to two characters. *)
Definition two_digits (n : Z) : string :=
  String (digit_char (n / 10)) (String (digit_char (n mod 10)) EmptyString).

Definition decimal (n : Z) : string := NilZero.string_of_int (Z.to_int n).

(** One conversion specification of [strftime]. *)
Definition conversion (c : ascii) (t : tm) : string :=
  if Ascii.eqb c "Y" then decimal (1900 + tm_year t)
  else if Ascii.eqb c "m" then two_digits (tm_mon t + 1)
  else if Ascii.eqb c "d" then two_digits (tm_mday t)
  else if Ascii.eqb c "H" then two_digits (tm_hour t)
  else if Ascii.eqb c "M" then two_digits (tm_min t)
  else if Ascii.eqb c "S" then two_digits (tm_sec t)
  else String "%" (String c EmptyString).

Fixpoint expand (format : string) (t : tm) : string :=
  match format with
  | EmptyString => EmptyString
  | String c rest =>
      if Ascii.eqb c "%" then
        match rest with
        | EmptyString => String c EmptyString
        | String conv rest' => (conversion conv t ++ expand rest' t)%string
        end
      else String c (expand rest t)
  end.

(** Modelled from the spec: the C library's [strftime], which is not
    part of the repository.  Section 4.2 describes the rendering as
    fixed-width zero-padded fields with the literal separators of the
    format.  The call returns the buffer contents and the number of
    characters written without the NUL, or 0 when the text and its
    NUL do not fit [max] characters. *)
Definition strftime (max : nat) (format : string) (t : tm) : string * nat :=
  let text := expand format t in
  if (String.length text <? max)%nat then (text, String.length text)
  else (EmptyString, O).

End CLib.

Import CLib.

(** ** [osmium::detail::parse_timestamp] *)

Module detail.

Definition mon_lengths : list Z :=
  [31; 29; 31; 30; 31; 30;
   31; 31; 30; 31; 30; 31].

(** [mon_lengths[i]]; the array has twelve elements. *)
Definition mon_lengths_at (i : Z) : outcome Z :=
  if (0 <=? i) && (i <? 12)
  then Returns (nth (Z.to_nat i) mon_lengths 0)
  else Undefined.

Definition cannot_parse : exception :=
  invalid_argument "can not parse timestamp".

(** The condition of the outer [if]. *)
Definition shape (str : string) : outcome bool :=
  digit_at str 0 &&>
  digit_at str 1 &&>
  digit_at str 2 &&>
  digit_at str 3 &&>
  char_is str 4 "-" &&>
  digit_at str 5 &&>
  digit_at str 6 &&>
  char_is str 7 "-" &&>
  digit_at str 8 &&>
  digit_at str 9 &&>
  char_is str 10 "T" &&>
  digit_at str 11 &&>
  digit_at str 12 &&>
  char_is str 13 ":" &&>
  digit_at str 14 &&>
  digit_at str 15 &&>
  char_is str 16 ":" &&>
  digit_at str 17 &&>
  digit_at str 18 &&>
  char_is str 19 "Z".

(** The assignments to the fields of [tm]. *)
Definition read_tm (str : string) : outcome tm :=
  y0 <- digit_value str 0 ;;
  y1 <- digit_value str 1 ;;
  y2 <- digit_value str 2 ;;
  y3 <- digit_value str 3 ;;
  m0 <- digit_value str 5 ;;
  m1 <- digit_value str 6 ;;
  d0 <- digit_value str 8 ;;
  d1 <- digit_value str 9 ;;
  h0 <- digit_value str 11 ;;
  h1 <- digit_value str 12 ;;
  n0 <- digit_value str 14 ;;
  n1 <- digit_value str 15 ;;
  s0 <- digit_value str 17 ;;
  s1 <- digit_value str 18 ;;
  Returns {| tm_year := y0 * 1000 + y1 * 100 + y2 * 10 + y3 - 1900;
             tm_mon := m0 * 10 + m1 - 1;
             tm_mday := d0 * 10 + d1;
             tm_hour := h0 * 10 + h1;
             tm_min := n0 * 10 + n1;
             tm_sec := s0 * 10 + s1;
             tm_wday := 0;
             tm_yday := 0;
             tm_isdst := 0 |}.

(** The condition of the inner [if]. *)
Definition in_range (t : tm) : outcome bool :=
  Returns (0 <=? tm_year t) &&>
  Returns (0 <=? tm_mon t) &&> Returns (tm_mon t <=? 11) &&>
  Returns (1 <=? tm_mday t) &&>
  (len <- mon_lengths_at (tm_mon t) ;; Returns (tm_mday t <=? len)) &&>
  Returns (0 <=? tm_hour t) &&> Returns (tm_hour t <=? 23) &&>
  Returns (0 <=? tm_min t) &&> Returns (tm_min t <=? 59) &&>
  Returns (0 <=? tm_sec t) &&> Returns (tm_sec t <=? 60).

Definition parse_timestamp (str : string) : outcome Z :=
  well_shaped <- shape str ;;
  if well_shaped then
    t <- read_tm str ;;
    valid <- in_range t ;;
    if valid then Returns (timegm t)
    else Throws cannot_parse
  else Throws cannot_parse.

End detail.

(** The inner condition without its evaluation order. *)
Definition range_check (t : tm) : bool :=
  (0 <=? tm_year t)
  && (0 <=? tm_mon t) && (tm_mon t <=? 11)
  && (1 <=? tm_mday t)
  && (tm_mday t <=? nth (Z.to_nat (tm_mon t)) detail.mon_lengths 0)
  && (0 <=? tm_hour t) && (tm_hour t <=? 23)
  && (0 <=? tm_min t) && (tm_min t <=? 59)
  && (0 <=? tm_sec t) && (tm_sec t <=? 60).

(** ** [osmium::Timestamp] *)

Record Timestamp : Type := mk_Timestamp {
  m_timestamp : Z
}.

(** length of ISO timestamp string yyyy-mm-ddThh:mm:ssZ\0 *)
Definition timestamp_length : nat := 20 + 1.

Definition timestamp_format : string := "%Y-%m-%dT%H:%M:%SZ".

(** [Timestamp()] *)
Definition Timestamp_default : Timestamp :=
  {| m_timestamp := 0 |}.

(** [Timestamp(T timestamp)] for an integral [T] *)
Definition Timestamp_of_integer (timestamp : Z) : Timestamp :=
  {| m_timestamp := to_uint32 timestamp |}.

(** [Timestamp(const char* timestamp)] and [Timestamp(const std::string&)] *)
Definition Timestamp_of_string (timestamp : string) : outcome Timestamp :=
  t <- detail.parse_timestamp timestamp ;;
  Returns {| m_timestamp := to_uint32 t |}.

Definition valid (t : Timestamp) : bool :=
  negb (m_timestamp t =? 0).

Definition operator_bool (t : Timestamp) : bool :=
  negb (m_timestamp t =? 0).

(** [time_t(m_timestamp)]: every [uint32_t] is a [time_t]. *)
Definition seconds_since_epoch (t : Timestamp) : Z :=
  m_timestamp t.

Definition operator_uint32_t (t : Timestamp) : Z :=
  m_timestamp t.

Definition operator_uint64_t (t : Timestamp) : Z :=
  m_timestamp t.

Definition operator_time_t (t : Timestamp) : Z :=
  m_timestamp t.

(** The differences of the integer types of up to 64 bits whose sum with
    and difference from a [uint32_t] value overflow no signed type. *)
Definition integral_difference (d : Z) : Prop :=
  - 2 ^ 63 + 2 ^ 32 <= d <= 2 ^ 63 - 2 ^ 32.

(** [operator+=] and [operator-=] for a difference of an integer type [T]
    (see [integral_difference]): the sum is formed in the common type of
    [uint32_t] and [T] and narrowed back to [uint32_t].  A difference of
    a floating-point type is outside this model. *)
Definition operator_plus_assign (t : Timestamp) (time_difference : Z) : Timestamp :=
  {| m_timestamp := to_uint32 (m_timestamp t + time_difference) |}.

Definition operator_minus_assign (t : Timestamp) (time_difference : Z) : Timestamp :=
  {| m_timestamp := to_uint32 (m_timestamp t - time_difference) |}.

(** A failed [assert(result != nullptr)] is [Undefined]. *)
Definition to_iso (t : Timestamp) : outcome string :=
  if negb (m_timestamp t =? 0) then
    let sse := seconds_since_epoch t in
    match gmtime_r sse with
    | Some tm =>
        let '(buffer, written) := strftime timestamp_length timestamp_format tm in
        Returns (substring 0 written buffer)
    | None => Undefined
    end
  else Returns EmptyString.

Definition start_of_time : Timestamp := Timestamp_of_integer 1.

Definition end_of_time : Timestamp := Timestamp_of_integer uint32_max.

Definition operator_eq (lhs rhs : Timestamp) : bool :=
  operator_uint32_t lhs =? operator_uint32_t rhs.

Definition operator_ne (lhs rhs : Timestamp) : bool :=
  negb (operator_eq lhs rhs).

Definition operator_lt (lhs rhs : Timestamp) : bool :=
  operator_uint32_t lhs <? operator_uint32_t rhs.

Definition operator_gt (lhs rhs : Timestamp) : bool :=
  operator_lt rhs lhs.

Definition operator_le (lhs rhs : Timestamp) : bool :=
  negb (operator_lt rhs lhs).

Definition operator_ge (lhs rhs : Timestamp) : bool :=
  negb (operator_lt lhs rhs).

Definition min_op_start_value : Timestamp := end_of_time.

Definition max_op_start_value : Timestamp := start_of_time.

(** The values a [Timestamp] object can hold. *)
Definition is_uint32 (t : Timestamp) : Prop :=
  0 <= m_timestamp t <= uint32_max.

(** ** Member functions, with the object they are called on

    A member function is a function from the object to its result and the
    object afterwards.  Its body reads the member [m_timestamp] with
    [load_m_timestamp] and assigns to it with [store_m_timestamp]; there
    is no other access to the object.  The bodies below are the bodies of
    the source, statement by statement.  A comparison operator is taken
    with the object as its left operand. *)

Definition member (A : Type) : Type := Timestamp -> A * Timestamp.

Definition member_return {A : Type} (a : A) : member A :=
  fun this => (a, this).

Definition member_bind {A B : Type} (m : member A) (k : A -> member B) : member B :=
  fun this => let '(a, this') := m this in k a this'.

Notation "x <-- m ;; k" := (member_bind m (fun x => k))
  (at level 61, m at next level, right associativity).

Definition load_m_timestamp : member Z :=
  fun this => (m_timestamp this, this).

Definition store_m_timestamp (v : Z) : member unit :=
  fun _ => (tt, {| m_timestamp := v |}).

Inductive comparison_operator : Type :=
| cmp_eq | cmp_ne | cmp_lt | cmp_gt | cmp_le | cmp_ge.

Definition compare (op : comparison_operator) : Timestamp -> Timestamp -> bool :=
  match op with
  | cmp_eq => operator_eq
  | cmp_ne => operator_ne
  | cmp_lt => operator_lt
  | cmp_gt => operator_gt
  | cmp_le => operator_le
  | cmp_ge => operator_ge
  end.

Module Member.

(** [return m_timestamp != 0;] *)
Definition valid : member bool :=
  v <-- load_m_timestamp ;; member_return (negb (v =? 0)).

Definition operator_bool : member bool :=
  v <-- load_m_timestamp ;; member_return (negb (v =? 0)).

(** [return time_t(m_timestamp);] *)
Definition seconds_since_epoch : member Z :=
  v <-- load_m_timestamp ;; member_return v.

Definition operator_uint32_t : member Z :=
  v <-- load_m_timestamp ;; member_return v.

Definition operator_uint64_t : member Z :=
  v <-- load_m_timestamp ;; member_return v.

Definition operator_time_t : member Z :=
  v <-- load_m_timestamp ;; member_return v.

(** [m_timestamp += time_difference;] *)
Definition operator_plus_assign (time_difference : Z) : member unit :=
  v <-- load_m_timestamp ;; store_m_timestamp (to_uint32 (v + time_difference)).

(** [m_timestamp -= time_difference;] *)
Definition operator_minus_assign (time_difference : Z) : member unit :=
  v <-- load_m_timestamp ;; store_m_timestamp (to_uint32 (v - time_difference)).

(** The copy assignment the compiler declares for the class: the member
    is copied from [other]. *)
Definition operator_assign (other : Timestamp) : member unit :=
  store_m_timestamp (m_timestamp other).

Definition to_iso : member (outcome string) :=
  v <-- load_m_timestamp ;;
  if negb (v =? 0) then
    sse <-- seconds_since_epoch ;;
    match gmtime_r sse with
    | Some tm =>
        let '(buffer, written) := strftime timestamp_length timestamp_format tm in
        member_return (Returns (substring 0 written buffer))
    | None => member_return Undefined
    end
  else member_return (Returns EmptyString).

(** [uint32_t(lhs) == uint32_t(rhs)], the object being [lhs] *)
Definition operator_eq (rhs : Timestamp) : member bool :=
  l <-- operator_uint32_t ;;
  member_return (l =? fst (operator_uint32_t rhs)).

(** [!(lhs == rhs)] *)
Definition operator_ne (rhs : Timestamp) : member bool :=
  e <-- operator_eq rhs ;; member_return (negb e).

(** [uint32_t(lhs) < uint32_t(rhs)], the object being [lhs] *)
Definition operator_lt (rhs : Timestamp) : member bool :=
  l <-- operator_uint32_t ;;
  member_return (l <? fst (operator_uint32_t rhs)).

(** [uint32_t(lhs) < uint32_t(rhs)], the object being [rhs] *)
Definition operator_lt_right (lhs : Timestamp) : member bool :=
  r <-- operator_uint32_t ;;
  member_return (fst (operator_uint32_t lhs) <? r).

(** [rhs < lhs] *)
Definition operator_gt (rhs : Timestamp) : member bool :=
  operator_lt_right rhs.

(** [!(rhs < lhs)] *)
Definition operator_le (rhs : Timestamp) : member bool :=
  b <-- operator_lt_right rhs ;; member_return (negb b).

(** [!(lhs < rhs)] *)
Definition operator_ge (rhs : Timestamp) : member bool :=
  b <-- operator_lt rhs ;; member_return (negb b).

Definition comparison (op : comparison_operator) : Timestamp -> member bool :=
  match op with
  | cmp_eq => operator_eq
  | cmp_ne => operator_ne
  | cmp_lt => operator_lt
  | cmp_gt => operator_gt
  | cmp_le => operator_le
  | cmp_ge => operator_ge
  end.

End Member.

(** The public operations that can be applied to a constructed object. *)
Inductive operation : Type :=
| call_valid
| call_operator_bool
| call_seconds_since_epoch
| call_operator_uint32_t
| call_operator_uint64_t
| call_operator_time_t
| call_operator_plus_assign (time_difference : Z)
| call_operator_minus_assign (time_difference : Z)
| call_to_iso
| call_compare (op : comparison_operator) (rhs : Timestamp)
| call_operator_assign (other : Timestamp).

Inductive value : Type :=
| void
| boolean (b : bool)
| integer (z : Z)
| text (s : outcome string).

Definition call (op : operation) : member value :=
  match op with
  | call_valid => b <-- Member.valid ;; member_return (boolean b)
  | call_operator_bool => b <-- Member.operator_bool ;; member_return (boolean b)
  | call_seconds_since_epoch =>
      z <-- Member.seconds_since_epoch ;; member_return (integer z)
  | call_operator_uint32_t =>
      z <-- Member.operator_uint32_t ;; member_return (integer z)
  | call_operator_uint64_t =>
      z <-- Member.operator_uint64_t ;; member_return (integer z)
  | call_operator_time_t =>
      z <-- Member.operator_time_t ;; member_return (integer z)
  | call_operator_plus_assign d =>
      _ <-- Member.operator_plus_assign d ;; member_return void
  | call_operator_minus_assign d =>
      _ <-- Member.operator_minus_assign d ;; member_return void
  | call_to_iso => s <-- Member.to_iso ;; member_return (text s)
  | call_compare op rhs =>
      b <-- Member.comparison op rhs ;; member_return (boolean b)
  | call_operator_assign other =>
      _ <-- Member.operator_assign other ;; member_return void
  end.

(** ** The text format [yyyy-mm-ddThh:mm:ssZ]

    The fixed shape and the six numbers of a text, stated on the text
    itself; the lemmas below relate them to what [parse_timestamp]
    computes character by character. *)

Module Format.

Inductive char_class : Type :=
| Digit
| Literal (c : ascii).

Definition matches (k : char_class) (c : ascii) : bool :=
  match k with
  | Digit => is_digit c
  | Literal l => Ascii.eqb c l
  end.

Definition pattern : list char_class :=
  [Digit; Digit; Digit; Digit; Literal "-";
   Digit; Digit; Literal "-";
   Digit; Digit; Literal "T";
   Digit; Digit; Literal ":";
   Digit; Digit; Literal ":";
   Digit; Digit; Literal "Z"].

(** The first characters of [str] are of the classes [p]. *)
Fixpoint starts_with (p : list char_class) (str : string) : bool :=
  match p, str with
  | [], _ => true
  | _ :: _, EmptyString => false
  | k :: p', String c rest => matches k c && starts_with p' rest
  end.

Definition well_shaped (str : string) : bool := starts_with pattern str.

Fixpoint number_from (acc : Z) (digits : string) : Z :=
  match digits with
  | EmptyString => acc
  | String c rest => number_from (10 * acc + (code c - code "0")) rest
  end.

(** The decimal number written by [digits]. *)
Definition number (digits : string) : Z := number_from 0 digits.

Definition year (str : string) : Z := number (substring 0 4 str).
Definition month (str : string) : Z := number (substring 5 2 str).
Definition day (str : string) : Z := number (substring 8 2 str).
Definition hour (str : string) : Z := number (substring 11 2 str).
Definition minute (str : string) : Z := number (substring 14 2 str).
Definition second (str : string) : Z := number (substring 17 2 str).

(** The broken-down time the fields of [str] stand for. *)
Definition tm_of (str : string) : tm :=
  {| tm_year := year str - 1900;
     tm_mon := month str - 1;
     tm_mday := day str;
     tm_hour := hour str;
     tm_min := minute str;
     tm_sec := second str;
     tm_wday := 0;
     tm_yday := 0;
     tm_isdst := 0 |}.

(** The largest day number accepted in month [m] (1 to 12). *)
Definition last_day (m : Z) : Z :=
  nth (Z.to_nat (m - 1)) detail.mon_lengths 0.

(** All six fields pass the range checks. *)
Definition fields_in_range (str : string) : bool :=
  (1900 <=? year str)
  && (1 <=? month str) && (month str <=? 12)
  && (1 <=? day str) && (day str <=? last_day (month str))
  && (hour str <=? 23)
  && (minute str <=? 59)
  && (second str <=? 60).

(** Seconds from the epoch to the calendar time written by [str], every
    minute counted as 60 seconds. *)
Definition epoch_seconds (str : string) : Z :=
  86400 * days_from_civil (year str) (month str - 1) (day str)
  + 3600 * hour str + 60 * minute str + second str.

End Format.

(** ** [operator<<]

    The stream is a [std::ostream] as the C++ standard library defines
    it, reduced to what the insertion of a [std::string] reads and
    changes: the characters written so far, the field width, the fill
    character, whether the adjustment is to the left, and whether the
    stream is good.  The insertion is a formatted output function: a
    stream that is not good takes no characters; otherwise the text is
    padded with the fill character to the field width, behind the text
    when the adjustment is to the left and in front of it otherwise, and
    the field width is set back to 0.  Writing the characters themselves
    does not fail here. *)

Record ostream : Type := mk_ostream {
  written : string;
  width : nat;
  fill : ascii;
  adjust_left : bool;
  good : bool
}.

Fixpoint padding (count : nat) (c : ascii) : string :=
  match count with
  | O => EmptyString
  | S n => String c (padding n c)
  end.

(** [out << s] for a [std::string] *)
Definition insert_string (out : ostream) (s : string) : ostream :=
  if good out then
    let pad := padding (width out - String.length s) (fill out) in
    {| written :=
         (written out ++ (if adjust_left out then s ++ pad else pad ++ s))%string;
       width := 0;
       fill := fill out;
       adjust_left := adjust_left out;
       good := true |}
  else out.

(** [out << timestamp.to_iso(); return out;] *)
Definition operator_shl (out : ostream) (timestamp : Timestamp) : outcome ostream :=
  iso <- to_iso timestamp ;; Returns (insert_string out iso).

(** ** The range validation in the words of the specification

    Section 4.1 step 3: a zero-based month in 0 to 11, a day from 1 to the
    bound of the table, an hour in 0 to 23, a minute in 0 to 59, a second
    in 0 to 60, and a year that is not negative, which every year of four
    digits is.  [Format.fields_in_range] has the check of the code on the
    year instead. *)
Definition specified_in_range (str : string) : bool :=
  (0 <=? Format.month str - 1) && (Format.month str - 1 <=? 11)
  && (1 <=? Format.day str) && (Format.day str <=? Format.last_day (Format.month str))
  && (0 <=? Format.hour str) && (Format.hour str <=? 23)
  && (0 <=? Format.minute str) && (Format.minute str <=? 59)
  && (0 <=? Format.second str) && (Format.second str <=? 60)
  && (0 <=? Format.year str).

(** ** The timestamps a program can make

    Every [Timestamp] comes from one of the constructors or sentinels and
    is changed by [operator+=] and [operator-=] only. *)

Inductive constructed : Timestamp -> Prop :=
| constructed_default : constructed Timestamp_default
| constructed_of_integer (v : Z) : constructed (Timestamp_of_integer v)
| constructed_of_string (str : string) (t : Timestamp) :
    Timestamp_of_string str = Returns t -> constructed t
| constructed_start_of_time : constructed start_of_time
| constructed_end_of_time : constructed end_of_time
| constructed_plus_assign (t : Timestamp) (d : Z) :
    constructed t -> constructed (operator_plus_assign t d)
| constructed_minus_assign (t : Timestamp) (d : Z) :
    constructed t -> constructed (operator_minus_assign t d).

(** ** Calendar dates and their order *)

(** The number of days of month [m] (0 to 11) of [year] in the calendar;
    [mon_lengths] allows one day more for the February of a year that is
    not a leap year. *)
Definition days_in_month (year m : Z) : Z :=
  if (m =? 1) && negb (isleap year) then 28
  else nth (Z.to_nat m) detail.mon_lengths 0.

(** The fields of a text, most significant first. *)
Definition fields (str : string) : list Z :=
  [Format.year str; Format.month str; Format.day str;
   Format.hour str; Format.minute str; Format.second str].

(** [a] is not behind [b] in the order of the calendar. *)
Fixpoint not_after (a b : list Z) : Prop :=
  match a, b with
  | x :: a', y :: b' => x < y \/ (x = y /\ not_after a' b')
  | _, _ => True
  end.

(** [a] is in front of [b] in the order of the calendar. *)
Fixpoint before (a b : list Z) : Prop :=
  match a, b with
  | x :: a', y :: b' => x < y \/ (x = y /\ before a' b')
  | _, _ => False
  end.

(** The text is a date of the calendar at a time of day up to 23:59:59. *)
Definition calendar_time (str : string) : Prop :=
  1 <= Format.month str <= 12 /\
  1 <= Format.day str <= days_in_month (Format.year str) (Format.month str - 1) /\
  Format.hour str <= 23 /\ Format.minute str <= 59 /\ Format.second str <= 59.

(** ** Checks by enumeration

    The days a [uint32_t] number of seconds can reach are 0 to 49710, in
    the years 1970 to 2106. *)

(** [date] is a date of the calendar that [days_from_civil] maps to day
    [d], with fields in the ranges the parser accepts. *)
Definition date_ok (d : Z) (date : Z * Z * Z) : bool :=
  let '(y, m, dd) := date in
  (days_from_civil y m dd =? d) && (1970 <=? y) && (y <=? 2106)
  && (0 <=? m) && (m <=? 11) && (1 <=? dd)
  && (dd <=? nth (Z.to_nat m) detail.mon_lengths 0)
  && (dd <=? days_in_month y m).

(** [civil_from_days] gives such a date for day [d]. *)
Definition day_ok (d : Z) : bool := date_ok d (civil_from_days d).

(** The year is written with four digits, which read as the year. *)
Definition year_ok (y : Z) : bool :=
  match decimal y with
  | String a (String b (String c (String d EmptyString))) =>
      is_digit a && is_digit b && is_digit c && is_digit d
      && (Format.number (decimal y) =? y)
  | _ => false
  end.

(** [p] holds for the [count] integers from [d] on. *)
Fixpoint holds_from (p : Z -> bool) (count : nat) (d : Z) : bool :=
  match count with
  | O => true
  | S n => p d && holds_from p n (d + 1)
  end.

Local Open Scope string_scope.
Local Open Scope Z_scope.

(** * Properties *)

(** ** The parser, character by character *)

Lemma shape_spec (str : string) :
  detail.shape str = Returns (Format.well_shaped str).
Proof.
  unfold detail.shape, Format.well_shaped, Format.pattern.
  unfold digit_at, char_is.
  do 20 (destruct str as [|? str]; [reflexivity|];
         cbn [char_at bind Format.starts_with Format.matches];
         match goal with
         | |- context [Returns (?b) &&> _] => destruct b; [|reflexivity]
         | |- _ => idtac
         end; cbn [and_then andb]).
  destruct (Ascii.eqb _ _); reflexivity.
Qed.

Lemma starts_with_length (p : list Format.char_class) (str : string) :
  Format.starts_with p str = true -> (List.length p <= String.length str)%nat.
Proof.
  revert str; induction p as [|k p IH]; intros [|c rest] H; simpl in *;
    try lia; try discriminate.
  apply andb_prop in H as [_ H]. apply IH in H. lia.
Qed.

Lemma is_digit_value (c : ascii) :
  is_digit c = true -> 0 <= code c - code "0" <= 9.
Proof.
  unfold is_digit. intros H. apply andb_prop in H as [H0 H9].
  apply Z.leb_le in H0, H9.
  change (code "0") with 48 in *. change (code "9") with 57 in *. lia.
Qed.

(** Destructs a text into its first twenty characters; the shorter texts
    contradict [Hlen]. *)
Ltac twenty_chars str Hlen :=
  do 20 (destruct str as [|? str]; [simpl in Hlen; lia|]); clear Hlen.

Lemma read_tm_spec (str : string) :
  Format.well_shaped str = true ->
  detail.read_tm str = Returns (Format.tm_of str).
Proof.
  intros H. apply starts_with_length in H. cbv [Format.pattern List.length] in H.
  twenty_chars str H.
  cbv [detail.read_tm digit_value bind char_at].
  cbv [Format.tm_of Format.year Format.month Format.day Format.hour
       Format.minute Format.second Format.number Format.number_from substring].
  f_equal. f_equal; lia.
Qed.

Lemma fields_bounds (str : string) :
  Format.well_shaped str = true ->
  0 <= Format.year str <= 9999 /\ 0 <= Format.month str <= 99 /\
  0 <= Format.day str <= 99 /\ 0 <= Format.hour str <= 99 /\
  0 <= Format.minute str <= 99 /\ 0 <= Format.second str <= 99.
Proof.
  intros H. pose proof (starts_with_length _ _ H) as Hlen.
  cbv [Format.pattern List.length] in Hlen.
  twenty_chars str Hlen.
  cbv [Format.well_shaped Format.pattern Format.starts_with Format.matches] in H.
  repeat match type of H with
         | (_ && _)%bool = true => let D := fresh "D" in apply andb_prop in H as [D H]
         end.
  repeat match goal with
         | D : is_digit _ = true |- _ => apply is_digit_value in D
         end.
  cbv [Format.year Format.month Format.day Format.hour
       Format.minute Format.second Format.number Format.number_from substring].
  lia.
Qed.

(** [mon_lengths] is only indexed when the month is known to be one of
    its twelve positions. *)
Lemma in_range_pure (t : tm) :
  detail.in_range t = Returns (range_check t).
Proof.
  unfold detail.in_range, range_check.
  destruct (0 <=? tm_year t); [|reflexivity].
  destruct (Z.leb_spec 0 (tm_mon t)) as [Hlo|]; [|reflexivity].
  destruct (Z.leb_spec (tm_mon t) 11) as [Hhi|]; [|reflexivity].
  destruct (1 <=? tm_mday t); [|reflexivity].
  assert (Hidx : ((0 <=? tm_mon t) && (tm_mon t <? 12))%bool = true).
  { apply andb_true_intro; split; [apply Z.leb_le | apply Z.ltb_lt]; lia. }
  cbn [and_then andb]. unfold detail.mon_lengths_at. rewrite Hidx.
  cbv [and_then bind].
  repeat match goal with
         | |- context [if ?c then _ else _] => destruct c; [|reflexivity]
         end.
  reflexivity.
Qed.

Lemma range_check_fields (str : string) :
  Format.well_shaped str = true ->
  range_check (Format.tm_of str) = Format.fields_in_range str.
Proof.
  intros H. apply fields_bounds in H.
  unfold range_check, Format.fields_in_range, Format.last_day, Format.tm_of.
  cbn [tm_year tm_mon tm_mday tm_hour tm_min tm_sec].
  apply eq_true_iff_eq.
  rewrite !andb_true_iff, !Z.leb_le. lia.
Qed.

(** What [parse_timestamp] does, for every text: the first twenty
    characters decide, and nothing behind the terminating NUL is read. *)
Lemma parse_timestamp_spec (str : string) :
  detail.parse_timestamp str =
  if (Format.well_shaped str && Format.fields_in_range str)%bool
  then Returns (timegm (Format.tm_of str))
  else Throws detail.cannot_parse.
Proof.
  unfold detail.parse_timestamp. rewrite shape_spec. cbn [bind].
  destruct (Format.well_shaped str) eqn:Hshape; [|reflexivity].
  rewrite (read_tm_spec _ Hshape). cbn [bind].
  rewrite in_range_pure. cbn [bind andb].
  rewrite (range_check_fields _ Hshape). reflexivity.
Qed.

Lemma parse_timestamp_defined (str : string) :
  detail.parse_timestamp str <> Undefined.
Proof.
  rewrite parse_timestamp_spec.
  destruct (Format.well_shaped str && Format.fields_in_range str)%bool; discriminate.
Qed.

(** ** The calendar conversion on accepted fields *)

Lemma mon_yday_bounds (leap : bool) (i : nat) :
  0 <= nth i (mon_yday leap) 0 <= 335.
Proof.
  destruct leap; do 12 (destruct i as [|i]; [simpl; lia|]);
    destruct i; simpl; lia.
Qed.

Lemma days_before_year_bounds (y : Z) :
  1900 <= y <= 9999 -> -25567 <= days_before_year y <= 2932532.
Proof.
  intros H. unfold days_before_year, leaps_thru_end_of.
  Z.div_mod_to_equations. lia.
Qed.

(** On accepted fields [timegm] has nothing to bring into range but the
    day of the month and the second, which count linearly, and its result
    is a [time_t]. *)
Lemma timegm_fields (str : string) :
  Format.well_shaped str = true ->
  Format.fields_in_range str = true ->
  timegm (Format.tm_of str) = Format.epoch_seconds str.
Proof.
  intros Hshape Hrange. apply fields_bounds in Hshape.
  unfold Format.fields_in_range in Hrange.
  rewrite !andb_true_iff, !Z.leb_le in Hrange.
  unfold timegm, Format.epoch_seconds, Format.tm_of.
  cbn [tm_year tm_mon tm_mday tm_hour tm_min tm_sec].
  assert (Hdiv : (Format.month str - 1) / 12 = 0) by (apply Z.div_small; lia).
  assert (Hmod : (Format.month str - 1) mod 12 = Format.month str - 1)
    by (apply Z.mod_small; lia).
  rewrite Hdiv, Hmod.
  replace (1900 + (Format.year str - 1900) + 0) with (Format.year str) by lia.
  unfold days_from_civil.
  pose proof (mon_yday_bounds (isleap (Format.year str))
                (Z.to_nat (Format.month str - 1))) as Hyday.
  pose proof (days_before_year_bounds (Format.year str)) as Hyear.
  unfold time_t_min, time_t_max.
  match goal with
  | |- (if ?c then _ else _) = _ => replace c with true; [lia|]
  end.
  symmetry. apply andb_true_intro. rewrite !Z.leb_le.
  change (2 ^ 63) with 9223372036854775808. lia.
Qed.

(** An accepted text parses to the seconds of its calendar time. *)
Lemma parse_timestamp_accepts (str : string) :
  Format.well_shaped str = true ->
  Format.fields_in_range str = true ->
  detail.parse_timestamp str = Returns (Format.epoch_seconds str).
Proof.
  intros Hshape Hrange.
  rewrite parse_timestamp_spec, Hshape, Hrange. cbn [andb].
  now rewrite timegm_fields.
Qed.

Lemma parse_timestamp_rejects (str : string) :
  (Format.well_shaped str && Format.fields_in_range str)%bool = false ->
  detail.parse_timestamp str = Throws detail.cannot_parse.
Proof.
  intros H. now rewrite parse_timestamp_spec, H.
Qed.

(** ** The values of a [Timestamp] *)

Lemma to_uint32_range (z : Z) : 0 <= to_uint32 z <= uint32_max.
Proof.
  unfold to_uint32, uint32_max.
  pose proof (Z.mod_pos_bound z (2 ^ 32) eq_refl) as H.
  change (2 ^ 32) with 4294967296 in *. lia.
Qed.

Lemma to_uint32_small (z : Z) : 0 <= z <= uint32_max -> to_uint32 z = z.
Proof.
  unfold to_uint32, uint32_max. intros H. apply Z.mod_small.
  change (2 ^ 32) with 4294967296. lia.
Qed.

Lemma Timestamp_of_integer_is_uint32 (v : Z) :
  is_uint32 (Timestamp_of_integer v).
Proof. apply to_uint32_range. Qed.

Lemma Timestamp_of_string_is_uint32 (str : string) (t : Timestamp) :
  Timestamp_of_string str = Returns t -> is_uint32 t.
Proof.
  unfold Timestamp_of_string.
  destruct (detail.parse_timestamp str); cbn [bind]; try discriminate.
  intros [= <-]. apply to_uint32_range.
Qed.

Lemma operator_plus_assign_is_uint32 (t : Timestamp) (d : Z) :
  is_uint32 (operator_plus_assign t d).
Proof. apply to_uint32_range. Qed.

Lemma operator_minus_assign_is_uint32 (t : Timestamp) (d : Z) :
  is_uint32 (operator_minus_assign t d).
Proof. apply to_uint32_range. Qed.

Lemma Timestamp_eq (a b : Timestamp) : m_timestamp a = m_timestamp b -> a = b.
Proof. destruct a, b; simpl; congruence. Qed.

(** ** Round trip and literal scenarios *)

(** C1. For each of the representation values 1, 1000000, 1500000000 and
    0xFFFFFFFE the formatter produces a text of 20 characters, and parsing
    that text gives the value back. *)
Theorem roundtrip_listed_values (v : Z) :
  In v [1; 1000000; 1500000000; 0xFFFFFFFE] ->
  exists iso : string,
    to_iso (Timestamp_of_integer v) = Returns iso /\
    String.length iso = 20%nat /\
    Timestamp_of_string iso = Returns (Timestamp_of_integer v) /\
    m_timestamp (Timestamp_of_integer v) = v.
Proof.
  intros Hin. simpl in Hin.
  destruct Hin as [<- | [<- | [<- | [<- | []]]]];
    eexists; (split; [vm_compute; reflexivity|]);
    repeat split; vm_compute; reflexivity.
Qed.

Lemma roundtrip_listed_values_witness :
  In 1500000000 [1; 1000000; 1500000000; 0xFFFFFFFE] /\
  exists iso : string,
    to_iso (Timestamp_of_integer 1500000000) = Returns iso /\
    String.length iso = 20%nat /\
    Timestamp_of_string iso = Returns (Timestamp_of_integer 1500000000) /\
    m_timestamp (Timestamp_of_integer 1500000000) = 1500000000.
Proof.
  split.
  - simpl. auto.
  - apply (roundtrip_listed_values 1500000000). simpl. auto.
Defined.

(** C3. The invalid value 0 is formatted as the empty text, and the empty
    text is no timestamp: parsing it throws, it returns no value. *)
Theorem invalid_formats_empty_and_empty_fails :
  to_iso (Timestamp_of_integer 0) = Returns "" /\
  to_iso Timestamp_default = Returns "" /\
  detail.parse_timestamp "" = Throws detail.cannot_parse /\
  Timestamp_of_string "" = Throws detail.cannot_parse /\
  (forall v : Z, detail.parse_timestamp "" <> Returns v).
Proof.
  repeat split; try reflexivity. intros v. discriminate.
Qed.

(** C4. The text 2016-07-25T09:30:00Z parses to 1469439000, and
    1469439000 is formatted as exactly that text. *)
Theorem literal_2016_07_25 :
  detail.parse_timestamp "2016-07-25T09:30:00Z" = Returns 1469439000 /\
  Timestamp_of_string "2016-07-25T09:30:00Z"
    = Returns {| m_timestamp := 1469439000 |} /\
  to_iso (Timestamp_of_integer 1469439000) = Returns "2016-07-25T09:30:00Z".
Proof.
  repeat split; vm_compute; reflexivity.
Qed.

(** C9. The text of the epoch itself, 1970-01-01T00:00:00Z, is parsed
    without an error to the value 0, which is the invalid value: the
    timestamp is not [valid] and is formatted as the empty text, not as
    the text it came from. *)
Theorem parse_epoch_is_invalid :
  exists t : Timestamp,
    Timestamp_of_string "1970-01-01T00:00:00Z" = Returns t /\
    m_timestamp t = 0 /\
    t = Timestamp_default /\
    valid t = false /\
    to_iso t = Returns "" /\
    to_iso t <> Returns "1970-01-01T00:00:00Z".
Proof.
  exists Timestamp_default.
  repeat split; try (vm_compute; reflexivity). discriminate.
Qed.

(** ** What the parser rejects and what it accepts *)

Lemma fields_in_range_intro (str : string) :
  1900 <= Format.year str ->
  1 <= Format.month str <= 12 ->
  1 <= Format.day str <= Format.last_day (Format.month str) ->
  Format.hour str <= 23 ->
  Format.minute str <= 59 ->
  Format.second str <= 60 ->
  Format.fields_in_range str = true.
Proof.
  intros. unfold Format.fields_in_range.
  rewrite !andb_true_iff, !Z.leb_le. lia.
Qed.

Lemma day_of_year_bound (leap : bool) (m d : Z) :
  1 <= m <= 12 ->
  1 <= d <= Format.last_day m ->
  0 <= nth (Z.to_nat (m - 1)) (mon_yday leap) 0 + (d - 1)
    <= if leap then 365 else 364.
Proof.
  intros Hm Hd.
  assert (Hcases : m = 1 \/ m = 2 \/ m = 3 \/ m = 4 \/ m = 5 \/ m = 6 \/
                   m = 7 \/ m = 8 \/ m = 9 \/ m = 10 \/ m = 11 \/ m = 12) by lia.
  unfold Format.last_day in Hd.
  repeat destruct Hcases as [-> | Hcases]; try subst m;
    destruct leap;
    repeat match goal with
           | H : context [nth ?i ?l 0] |- _ =>
               let v := eval vm_compute in (nth i l 0) in
               change (nth i l 0) with v in H
           | |- context [nth ?i ?l 0] =>
               let v := eval vm_compute in (nth i l 0) in
               change (nth i l 0) with v
           end; lia.
Qed.

(** A text of fewer than twenty characters does not have the shape: the
    terminating NUL is neither a digit nor a separator. *)
Lemma short_text_not_well_shaped (str : string) :
  (String.length str < 20)%nat -> Format.well_shaped str = false.
Proof.
  intros Hlen. destruct (Format.well_shaped str) eqn:H; [|reflexivity].
  apply starts_with_length in H. cbv [Format.pattern List.length] in H. lia.
Qed.

(** C2, as the code has it.  A text is rejected with
    [std::invalid_argument], message [can not parse timestamp], and no
    value is returned, when it has fewer than 20 characters, when one of
    its first 20 characters is not of the class the shape requires (a
    wrong separator, a character that is not a digit), or when the month
    is not 01 to 12, the day is 00 or behind the last day of the table for
    the month, the hour is above 23, the minute above 59 or the second
    above 60.  Characters behind the first 20 are not looked at. *)
Theorem parse_rejects_deviations (str : string) :
  (String.length str < 20)%nat \/
  Format.well_shaped str = false \/
  Format.month str < 1 \/ 12 < Format.month str \/
  Format.day str < 1 \/ Format.last_day (Format.month str) < Format.day str \/
  23 < Format.hour str \/ 59 < Format.minute str \/ 60 < Format.second str ->
  detail.parse_timestamp str
    = Throws (invalid_argument "can not parse timestamp") /\
  Timestamp_of_string str
    = Throws (invalid_argument "can not parse timestamp").
Proof.
  intros H.
  assert (Hthrows : detail.parse_timestamp str = Throws detail.cannot_parse).
  { apply parse_timestamp_rejects.
    destruct H as [H | [H | H]].
    - now rewrite (short_text_not_well_shaped _ H).
    - now rewrite H.
    - apply andb_false_intro2. apply not_true_is_false. intros Hrange.
      unfold Format.fields_in_range in Hrange.
      rewrite !andb_true_iff, !Z.leb_le in Hrange. lia. }
  unfold Timestamp_of_string. rewrite Hthrows. split; reflexivity.
Qed.

Lemma parse_rejects_deviations_witness :
  12 < Format.month "2016-13-01T00:00:00Z" /\
  detail.parse_timestamp "2016-13-01T00:00:00Z"
    = Throws (invalid_argument "can not parse timestamp") /\
  Timestamp_of_string "2016-13-01T00:00:00Z"
    = Throws (invalid_argument "can not parse timestamp").
Proof.
  split.
  - vm_compute. reflexivity.
  - apply (parse_rejects_deviations "2016-13-01T00:00:00Z").
    do 3 right. left. vm_compute. reflexivity.
Defined.

(** C2 fails as stated.  A text of 21 characters has the wrong length and
    is parsed all the same; and the message of the exception is not
    [cannot parse timestamp]. *)
Lemma parse_accepts_longer_text :
  String.length "2015-01-01T00:00:00Zx" <> 20%nat /\
  detail.parse_timestamp "2015-01-01T00:00:00Zx" = Returns 1420070400 /\
  detail.parse_timestamp "2015/01/01T00:00:00Z"
    <> Throws (invalid_argument "cannot parse timestamp").
Proof.
  repeat split; try (vm_compute; reflexivity); vm_compute; discriminate.
Qed.

(** C8, as the code has it.  A text of the fixed shape whose second is 60
    and whose other fields pass the range checks (a year from 1900 on, a month 01 to 12,
    a day from 01 to the last day of the table, an hour up to 23, a minute
    up to 59) is parsed: the value is the number of seconds of its
    calendar time with the 60 seconds counted as they are, one more than
    for second 59. *)
Theorem parse_accepts_second_60 (str : string) :
  Format.well_shaped str = true ->
  Format.second str = 60 ->
  1900 <= Format.year str ->
  1 <= Format.month str <= 12 ->
  1 <= Format.day str <= Format.last_day (Format.month str) ->
  Format.hour str <= 23 ->
  Format.minute str <= 59 ->
  let seconds :=
    86400 * days_from_civil (Format.year str) (Format.month str - 1) (Format.day str)
    + 3600 * Format.hour str + 60 * Format.minute str + 60 in
  detail.parse_timestamp str = Returns seconds /\
  seconds = timegm (Format.tm_of str) /\
  Timestamp_of_string str = Returns (Timestamp_of_integer seconds).
Proof.
  intros Hshape Hsec Hyear Hmonth Hday Hhour Hminute seconds.
  assert (Hrange : Format.fields_in_range str = true)
    by (apply fields_in_range_intro; try assumption; lia).
  assert (Hseconds : Format.epoch_seconds str = seconds)
    by (unfold Format.epoch_seconds, seconds; now rewrite Hsec).
  assert (Hparse : detail.parse_timestamp str = Returns seconds)
    by (now rewrite (parse_timestamp_accepts str Hshape Hrange), Hseconds).
  split; [exact Hparse | split].
  - now rewrite (timegm_fields str Hshape Hrange).
  - unfold Timestamp_of_string. now rewrite Hparse.
Qed.

(** C8 fails as stated.  The text 1899-12-31T23:59:60Z has the fixed
    shape, its second is 60 and its other fields are in the ranges the
    specification gives, every year of four digits being in range there;
    the parser throws, because its check on the year is [tm_year >= 0]. *)
Lemma parse_rejects_second_60_of_1899 :
  Format.well_shaped "1899-12-31T23:59:60Z" = true /\
  Format.second "1899-12-31T23:59:60Z" = 60 /\
  specified_in_range "1899-12-31T23:59:60Z" = true /\
  detail.parse_timestamp "1899-12-31T23:59:60Z"
    = Throws (invalid_argument "can not parse timestamp").
Proof.
  repeat split; vm_compute; reflexivity.
Qed.

Lemma parse_accepts_second_60_witness :
  detail.parse_timestamp "2016-12-31T23:59:60Z" = Returns 1483228800 /\
  Timestamp_of_string "2016-12-31T23:59:60Z"
    = Returns (Timestamp_of_integer 1483228800).
Proof.
  destruct (parse_accepts_second_60 "2016-12-31T23:59:60Z")
    as (Hparse & _ & Hstamp);
    try (vm_compute; first [reflexivity | discriminate | split; discriminate]).
  split; [exact Hparse | exact Hstamp].
Defined.

(** Calendar times of the years 1900 to 1969 lie at most at the epoch, and
    less than 2^32 seconds before it. *)
Lemma epoch_seconds_before_epoch (str : string) :
  Format.well_shaped str = true ->
  Format.fields_in_range str = true ->
  Format.year str <= 1969 ->
  - 2 ^ 32 < Format.epoch_seconds str <= 0 /\
  (Format.second str <= 59 -> Format.epoch_seconds str < 0).
Proof.
  intros Hshape Hrange Hyear. apply fields_bounds in Hshape.
  unfold Format.fields_in_range in Hrange.
  rewrite !andb_true_iff, !Z.leb_le in Hrange.
  unfold Format.epoch_seconds, days_from_civil.
  pose proof (day_of_year_bound (isleap (Format.year str))
                (Format.month str) (Format.day str)) as Hyday.
  assert (Hbefore : days_before_year (Format.year str) <= -731 \/
                    Format.year str = 1969).
  { unfold days_before_year, leaps_thru_end_of.
    Z.div_mod_to_equations. lia. }
  assert (Hafter : -25567 <= days_before_year (Format.year str)).
  { apply days_before_year_bounds. lia. }
  change (2 ^ 32) with 4294967296.
  destruct Hbefore as [Hbefore | H1969].
  - destruct (isleap (Format.year str)); lia.
  - rewrite H1969 in *.
    change (isleap 1969) with false in *.
    change (days_before_year 1969) with (-365) in *. lia.
Qed.

(** C10, as the code has it.  A text of the fixed shape whose fields pass
    the range checks (which includes a year from 1900 on) and whose year is 1969 or earlier
    is parsed without an error; the seconds from the epoch are not
    positive, negative unless the text is the leap-second notation of the
    last minute of 1969, and the [Timestamp] holds them modulo 2^32.  The
    text 1969-12-31T23:59:59Z gives 0xFFFFFFFF, which is [end_of_time]. *)
Theorem parse_before_epoch_wraps (str : string) :
  Format.well_shaped str = true ->
  1900 <= Format.year str <= 1969 ->
  1 <= Format.month str <= 12 ->
  1 <= Format.day str <= Format.last_day (Format.month str) ->
  Format.hour str <= 23 ->
  Format.minute str <= 59 ->
  Format.second str <= 60 ->
  let seconds := Format.epoch_seconds str in
  detail.parse_timestamp str = Returns seconds /\
  seconds <= 0 /\
  (Format.second str <= 59 -> seconds < 0) /\
  Timestamp_of_string str = Returns {| m_timestamp := seconds mod 2 ^ 32 |} /\
  (seconds < 0 -> seconds mod 2 ^ 32 = 2 ^ 32 + seconds) /\
  Timestamp_of_string "1969-12-31T23:59:59Z" = Returns end_of_time /\
  m_timestamp end_of_time = 0xFFFFFFFF.
Proof.
  intros Hshape Hyear Hmonth Hday Hhour Hminute Hsecond seconds.
  assert (Hrange : Format.fields_in_range str = true)
    by (apply fields_in_range_intro; try assumption; lia).
  pose proof (parse_timestamp_accepts str Hshape Hrange) as Hparse.
  destruct (epoch_seconds_before_epoch str Hshape Hrange) as [[Hlo Hhi] Hneg];
    [lia|].
  fold seconds in Hparse, Hlo, Hhi, Hneg.
  repeat split; try assumption.
  - unfold Timestamp_of_string. now rewrite Hparse.
  - intros Hlt. symmetry. apply Z.mod_unique_pos with (q := -1).
    + change (2 ^ 32) with 4294967296 in *. lia.
    + lia.
Qed.

(** C10 fails as stated.  The text 1812-06-24T12:00:00Z has the fixed
    shape, fields in the ranges the specification gives and a date before
    the epoch; the parser does not succeed on it, it throws. *)
Lemma parse_rejects_1812 :
  Format.well_shaped "1812-06-24T12:00:00Z" = true /\
  specified_in_range "1812-06-24T12:00:00Z" = true /\
  Format.year "1812-06-24T12:00:00Z" <= 1969 /\
  detail.parse_timestamp "1812-06-24T12:00:00Z"
    = Throws (invalid_argument "can not parse timestamp") /\
  Timestamp_of_string "1812-06-24T12:00:00Z"
    = Throws (invalid_argument "can not parse timestamp").
Proof.
  repeat split; vm_compute; first [reflexivity | discriminate].
Qed.

Lemma parse_before_epoch_wraps_witness :
  detail.parse_timestamp "1969-07-20T20:17:40Z" = Returns (-14182940) /\
  Timestamp_of_string "1969-07-20T20:17:40Z"
    = Returns {| m_timestamp := 4280784356 |}.
Proof.
  destruct (parse_before_epoch_wraps "1969-07-20T20:17:40Z")
    as (Hparse & _ & _ & Hstamp & _);
    try (vm_compute; first [reflexivity | discriminate | split; discriminate]).
  split; [exact Hparse | exact Hstamp].
Defined.

(** X4. The range check on the year, [tm_year >= 0], refuses every text
    whose year is before 1900, whatever the other fields are. *)
Lemma parse_rejects_years_before_1900 (str : string) :
  Format.year str < 1900 ->
  detail.parse_timestamp str = Throws detail.cannot_parse.
Proof.
  intros Hyear. apply parse_timestamp_rejects.
  apply andb_false_intro2. apply not_true_is_false. intros Hrange.
  unfold Format.fields_in_range in Hrange.
  rewrite !andb_true_iff, !Z.leb_le in Hrange. lia.
Qed.

(** ** Ordering and equality *)

(** C5. The six comparison operators are the comparisons of the unsigned
    32-bit values [seconds_since_epoch]; the order is total and
    transitive, two timestamps that are each at most the other are the
    same timestamp, and the invalid value 0 is strictly before
    [start_of_time]. *)
Theorem comparisons_are_integer_order (a b c : Timestamp) :
  operator_eq a b = (seconds_since_epoch a =? seconds_since_epoch b) /\
  operator_ne a b = negb (seconds_since_epoch a =? seconds_since_epoch b) /\
  operator_lt a b = (seconds_since_epoch a <? seconds_since_epoch b) /\
  operator_gt a b = (seconds_since_epoch a >? seconds_since_epoch b) /\
  operator_le a b = (seconds_since_epoch a <=? seconds_since_epoch b) /\
  operator_ge a b = (seconds_since_epoch a >=? seconds_since_epoch b) /\
  (operator_le a b = true \/ operator_le b a = true) /\
  (operator_le a b = true -> operator_le b c = true -> operator_le a c = true) /\
  (operator_le a b = true -> operator_le b a = true -> a = b) /\
  (operator_eq a b = true <-> a = b) /\
  (operator_lt a b = true \/ operator_eq a b = true \/ operator_gt a b = true) /\
  m_timestamp Timestamp_default = 0 /\
  m_timestamp start_of_time = 1 /\
  operator_lt Timestamp_default start_of_time = true.
Proof.
  unfold operator_ge, operator_le, operator_gt, operator_ne, operator_eq,
    operator_lt, operator_uint32_t, seconds_since_epoch.
  destruct a as [x], b as [y], c as [z]. cbn [m_timestamp].
  rewrite Z.gtb_ltb, Z.geb_leb, !Z.leb_antisym.
  rewrite !negb_true_iff, !Z.ltb_ge, !Z.ltb_lt, Z.eqb_eq.
  repeat split; try reflexivity; try lia.
  - intros Hxy Hyx. f_equal. lia.
  - intros Heq. f_equal. exact Heq.
  - intros [= Heq]. exact Heq.
Qed.

Lemma comparisons_are_integer_order_witness :
  operator_le (Timestamp_of_integer 1) (Timestamp_of_integer 1000000) = true /\
  operator_le (Timestamp_of_integer 1000000) (Timestamp_of_integer 1500000000) = true /\
  operator_le (Timestamp_of_integer 1) (Timestamp_of_integer 1500000000) = true.
Proof.
  destruct (comparisons_are_integer_order
              (Timestamp_of_integer 1) (Timestamp_of_integer 1000000)
              (Timestamp_of_integer 1500000000))
    as (_ & _ & _ & _ & _ & _ & _ & Htrans & _).
  split; [reflexivity | split; [reflexivity |]].
  apply Htrans; reflexivity.
Defined.

(** ** Sentinels *)

(** C6. [start_of_time] holds 1 and is strictly before every other valid
    timestamp; [end_of_time] holds 0xFFFFFFFF and is strictly after every
    other valid timestamp.  Both are constants: they take nothing and
    cannot fail. *)
Theorem sentinels_bound_valid_timestamps (t : Timestamp) :
  is_uint32 t ->
  valid t = true ->
  m_timestamp start_of_time = 1 /\
  m_timestamp end_of_time = 0xFFFFFFFF /\
  (t <> start_of_time -> operator_lt start_of_time t = true) /\
  (t <> end_of_time -> operator_gt end_of_time t = true) /\
  operator_le start_of_time t = true /\
  operator_ge end_of_time t = true.
Proof.
  unfold is_uint32, valid, operator_ge, operator_le, operator_gt, operator_lt,
    operator_uint32_t, uint32_max.
  intros Hrange Hvalid.
  apply negb_true_iff, Z.eqb_neq in Hvalid.
  change (m_timestamp start_of_time) with 1.
  change (m_timestamp end_of_time) with 4294967295.
  rewrite !negb_true_iff, !Z.ltb_ge, !Z.ltb_lt.
  repeat split; try lia.
  - intros Hne.
    assert (m_timestamp t <> 1)
      by (intros Heq; apply Hne; apply Timestamp_eq; exact Heq).
    lia.
  - intros Hne.
    assert (m_timestamp t <> 4294967295)
      by (intros Heq; apply Hne; apply Timestamp_eq; exact Heq).
    lia.
Qed.

Lemma sentinels_bound_valid_timestamps_witness :
  operator_lt start_of_time (Timestamp_of_integer 1469439000) = true /\
  operator_gt end_of_time (Timestamp_of_integer 1469439000) = true.
Proof.
  destruct (sentinels_bound_valid_timestamps (Timestamp_of_integer 1469439000))
    as (_ & _ & Hstart & Hend & _).
  - apply Timestamp_of_integer_is_uint32.
  - reflexivity.
  - split; [apply Hstart | apply Hend]; discriminate.
Defined.

(** ** Which operations change the object *)

(** The member functions return what the functions of the object's value
    return. *)
Lemma call_returns (op : operation) (this : Timestamp) :
  fst (call op this) =
  match op with
  | call_valid => boolean (valid this)
  | call_operator_bool => boolean (operator_bool this)
  | call_seconds_since_epoch => integer (seconds_since_epoch this)
  | call_operator_uint32_t => integer (operator_uint32_t this)
  | call_operator_uint64_t => integer (operator_uint64_t this)
  | call_operator_time_t => integer (operator_time_t this)
  | call_to_iso => text (to_iso this)
  | call_compare op rhs => boolean (compare op this rhs)
  | call_operator_plus_assign _ | call_operator_minus_assign _
  | call_operator_assign _ => void
  end.
Proof.
  destruct op as [| | | | | | d | d | | op rhs | other]; try reflexivity.
  - cbv [call Member.to_iso member_bind member_return load_m_timestamp
         Member.seconds_since_epoch fst].
    unfold to_iso, seconds_since_epoch.
    destruct (negb (m_timestamp this =? 0)); [|reflexivity].
    destruct (gmtime_r (m_timestamp this)); [|reflexivity].
    destruct (strftime timestamp_length timestamp_format t). reflexivity.
  - destruct op; reflexivity.
Qed.

Lemma to_uint32_fixed (v d : Z) :
  0 <= v <= uint32_max ->
  (to_uint32 (v + d) = v <-> d mod 2 ^ 32 = 0) /\
  (to_uint32 (v - d) = v <-> d mod 2 ^ 32 = 0).
Proof.
  unfold to_uint32, uint32_max. change (2 ^ 32) with 4294967296. intros Hv.
  repeat split; intros H; Z.div_mod_to_equations; lia.
Qed.

(** C7, as the code has it.  A constructed [Timestamp] can change: the
    public operators [+=] and [-=] and the copy assignment assign to
    [m_timestamp], and no other operation does.  For a difference [d] of
    an integer type, [t += d] and [t -= d] change the stored value exactly
    when [d] is not a multiple of 2^32, to the sum and the difference
    modulo 2^32; the copy assignment stores the value of the other
    timestamp.  All other operations ([valid], the conversions,
    [seconds_since_epoch], [to_iso], the six comparisons) leave the object
    as it was. *)
Theorem only_assignments_change_the_object (op : operation) (this : Timestamp) :
  is_uint32 this ->
  (forall d : Z,
      op = call_operator_plus_assign d \/ op = call_operator_minus_assign d ->
      integral_difference d) ->
  (snd (call op this) <> this <->
   (exists d : Z,
       (op = call_operator_plus_assign d \/ op = call_operator_minus_assign d) /\
       d mod 2 ^ 32 <> 0) \/
   (exists other : Timestamp, op = call_operator_assign other /\ other <> this)) /\
  (forall d : Z,
      op = call_operator_plus_assign d ->
      m_timestamp (snd (call op this)) = (m_timestamp this + d) mod 2 ^ 32) /\
  (forall d : Z,
      op = call_operator_minus_assign d ->
      m_timestamp (snd (call op this)) = (m_timestamp this - d) mod 2 ^ 32) /\
  (forall other : Timestamp,
      op = call_operator_assign other -> snd (call op this) = other).
Proof.
  intros Hrange _. destruct this as [v]. unfold is_uint32 in Hrange.
  cbn [m_timestamp] in Hrange.
  destruct op as [| | | | | | d | d | | cmp rhs | other];
    (split; [|repeat split; try discriminate]).
  all: try (split;
            [ intros Hne; exfalso; apply Hne; try reflexivity
            | intros [(d' & [H | H] & _) | (o & H & _)]; discriminate H ]).
  - (* += *)
    destruct (to_uint32_fixed v d Hrange) as [Hplus _].
    cbv [call Member.operator_plus_assign member_bind member_return
         load_m_timestamp store_m_timestamp snd m_timestamp].
    split.
    + intros Hne. left. exists d. split; [left; reflexivity|].
      intros Hd. apply Hne. f_equal. now apply Hplus.
    + intros [(d' & [H | H] & Hd) | (o & H & _)]; try discriminate H.
      injection H as <-. intros [= Heq]. apply Hd. now apply Hplus.
  - intros d' [= <-]. reflexivity.
  - (* -= *)
    destruct (to_uint32_fixed v d Hrange) as [_ Hminus].
    cbv [call Member.operator_minus_assign member_bind member_return
         load_m_timestamp store_m_timestamp snd m_timestamp].
    split.
    + intros Hne. left. exists d. split; [right; reflexivity|].
      intros Hd. apply Hne. f_equal. now apply Hminus.
    + intros [(d' & [H | H] & Hd) | (o & H & _)]; try discriminate H.
      injection H as <-. intros [= Heq]. apply Hd. now apply Hminus.
  - intros d' [= <-]. reflexivity.
  - (* to_iso *)
    cbv [call Member.to_iso member_bind member_return load_m_timestamp
         Member.seconds_since_epoch snd m_timestamp].
    destruct (negb (v =? 0)); [|reflexivity].
    destruct (gmtime_r v); [|reflexivity].
    destruct (strftime timestamp_length timestamp_format t). reflexivity.
  - (* comparisons *)
    destruct cmp; reflexivity.
  - (* copy assignment *)
    cbv [call Member.operator_assign member_bind member_return
         store_m_timestamp snd].
    destruct other as [w]. cbn [m_timestamp]. split.
    + intros Hne. right. exists {| m_timestamp := w |}. split; [reflexivity|].
      exact Hne.
    + intros [(d' & [H | H] & _) | (o & H & Ho)]; try discriminate H.
      injection H as <-. exact Ho.
  - intros o [= <-]. now destruct other.
Qed.

Lemma only_assignments_change_the_object_witness :
  snd (call (call_operator_plus_assign 60) (Timestamp_of_integer 1469439000))
  <> Timestamp_of_integer 1469439000.
Proof.
  refine (proj2 (proj1 (only_assignments_change_the_object
                          (call_operator_plus_assign 60)
                          (Timestamp_of_integer 1469439000) _ _)) _).
  - apply Timestamp_of_integer_is_uint32.
  - intros d [[= <-] | [=]]. unfold integral_difference.
    change (2 ^ 63) with 9223372036854775808.
    change (2 ^ 32) with 4294967296. lia.
  - left. exists 60. split; [left; reflexivity|]. vm_compute. discriminate.
Defined.

(** C7 fails as stated: [operator+=] is a public operation, and after
    [t += 1] on [start_of_time] the stored value is 2, not 1. *)
Lemma operator_plus_assign_changes_the_object :
  m_timestamp start_of_time = 1 /\
  m_timestamp (snd (call (call_operator_plus_assign 1) start_of_time)) = 2 /\
  snd (call (call_operator_plus_assign 1) start_of_time) <> start_of_time.
Proof.
  repeat split; try reflexivity. discriminate.
Qed.

(** ** Formatting and parsing are inverse on every valid timestamp *)

Lemma holds_from_spec (p : Z -> bool) (count : nat) (d : Z) :
  holds_from p count d = true ->
  forall k : Z, d <= k < d + Z.of_nat count -> p k = true.
Proof.
  revert d; induction count as [|n IH]; intros d H k Hk.
  - simpl in Hk. lia.
  - cbn [holds_from] in H. apply andb_prop in H as [Hd Hrest].
    destruct (Z.eq_dec k d) as [-> | Hne]; [exact Hd|].
    apply (IH (d + 1) Hrest). lia.
Qed.

Lemma all_days_ok : holds_from day_ok (Z.to_nat 49711) 0 = true.
Proof. vm_compute. reflexivity. Qed.

Lemma all_years_ok : holds_from year_ok 137 1970 = true.
Proof. vm_compute. reflexivity. Qed.

Lemma day_ok_in_range (d : Z) : 0 <= d <= 49710 -> day_ok d = true.
Proof.
  intros H. apply (holds_from_spec _ _ _ all_days_ok).
  rewrite Z2Nat.id; lia.
Qed.

Lemma year_ok_in_range (y : Z) : 1970 <= y <= 2106 -> year_ok y = true.
Proof.
  intros H. apply (holds_from_spec _ _ _ all_years_ok). simpl. lia.
Qed.

Lemma digit_char_code (d : Z) :
  0 <= d <= 9 -> code (digit_char d) = code "0" + d.
Proof.
  intros H. unfold digit_char, code at 1.
  rewrite N_ascii_embedding.
  - rewrite Z2N.id; [reflexivity|]. change (code "0") with 48. lia.
  - change (code "0") with 48. lia.
Qed.

Lemma digit_char_is_digit (d : Z) :
  0 <= d <= 9 -> is_digit (digit_char d) = true.
Proof.
  intros H. unfold is_digit. rewrite (digit_char_code d H).
  apply andb_true_intro. rewrite !Z.leb_le.
  change (code "0") with 48. change (code "9") with 57. lia.
Qed.

Lemma two_digits_spec (n : Z) :
  0 <= n <= 99 ->
  exists a b : ascii,
    two_digits n = String a (String b EmptyString) /\
    is_digit a = true /\ is_digit b = true /\
    10 * (code a - code "0") + (code b - code "0") = n.
Proof.
  intros H.
  assert (Hq : 0 <= n / 10 <= 9) by (Z.div_mod_to_equations; lia).
  assert (Hr : 0 <= n mod 10 <= 9) by (Z.div_mod_to_equations; lia).
  exists (digit_char (n / 10)), (digit_char (n mod 10)).
  split; [reflexivity|].
  split; [now apply digit_char_is_digit|].
  split; [now apply digit_char_is_digit|].
  rewrite !digit_char_code by assumption.
  Z.div_mod_to_equations. lia.
Qed.

Lemma year_spec (y : Z) :
  1970 <= y <= 2106 ->
  exists a b c d : ascii,
    decimal y = String a (String b (String c (String d EmptyString))) /\
    is_digit a = true /\ is_digit b = true /\
    is_digit c = true /\ is_digit d = true /\
    Format.number (String a (String b (String c (String d EmptyString)))) = y.
Proof.
  intros H. apply year_ok_in_range in H. unfold year_ok in H.
  destruct (decimal y) as [|a [|b [|c [|d [|]]]]]; try discriminate.
  exists a, b, c, d.
  apply andb_prop in H as [H N]. apply andb_prop in H as [H D3].
  apply andb_prop in H as [H D2]. apply andb_prop in H as [D0 D1].
  apply Z.eqb_eq in N.
  repeat split; assumption.
Qed.

Lemma mon_lengths_bound (i : nat) : nth i detail.mon_lengths 0 <= 31.
Proof.
  do 12 (destruct i as [|i]; [simpl; lia|]). destruct i; simpl; lia.
Qed.

(** The text [strftime] makes of a broken-down time with fields in range
    has 20 characters of the fixed shape, and its fields are the fields of
    the broken-down time. *)
Lemma expand_fields (t : tm) :
  1970 <= 1900 + tm_year t <= 2106 ->
  0 <= tm_mon t <= 11 ->
  1 <= tm_mday t <= nth (Z.to_nat (tm_mon t)) detail.mon_lengths 0 ->
  0 <= tm_hour t <= 23 ->
  0 <= tm_min t <= 59 ->
  0 <= tm_sec t <= 59 ->
  let iso := expand timestamp_format t in
  String.length iso = 20%nat /\
  Format.well_shaped iso = true /\
  Format.year iso = 1900 + tm_year t /\
  Format.month iso = tm_mon t + 1 /\
  Format.day iso = tm_mday t /\
  Format.hour iso = tm_hour t /\
  Format.minute iso = tm_min t /\
  Format.second iso = tm_sec t.
Proof.
  intros Hyear Hmon Hmday Hhour Hmin Hsec iso.
  destruct (year_spec _ Hyear) as (y0 & y1 & y2 & y3 & Ey & Dy0 & Dy1 & Dy2 & Dy3 & Ny).
  destruct (two_digits_spec (tm_mon t + 1)) as (m0 & m1 & Em & Dm0 & Dm1 & Nm); [lia|].
  assert (Hmday99 : 0 <= tm_mday t <= 99).
  { pose proof (mon_lengths_bound (Z.to_nat (tm_mon t))). lia. }
  destruct (two_digits_spec (tm_mday t) Hmday99) as (d0 & d1 & Ed & Dd0 & Dd1 & Nd).
  destruct (two_digits_spec (tm_hour t)) as (h0 & h1 & Eh & Dh0 & Dh1 & Nh); [lia|].
  destruct (two_digits_spec (tm_min t)) as (n0 & n1 & En & Dn0 & Dn1 & Nn); [lia|].
  destruct (two_digits_spec (tm_sec t)) as (s0 & s1 & Es & Ds0 & Ds1 & Ns); [lia|].
  assert (Hiso : iso = String y0 (String y1 (String y2 (String y3 (String "-"
                 (String m0 (String m1 (String "-" (String d0 (String d1 (String "T"
                 (String h0 (String h1 (String ":" (String n0 (String n1 (String ":"
                 (String s0 (String s1 (String "Z" EmptyString)))))))))))))))))))).
  { unfold iso, timestamp_format.
    cbn [expand Ascii.eqb Bool.eqb conversion].
    rewrite Ey, Em, Ed, Eh, En, Es. reflexivity. }
  rewrite Hiso in *. clear Hiso iso.
  match goal with |- String.length ?s = _ /\ _ => set (iso := s) end.
  assert (Hshape : Format.well_shaped iso = true).
  { cbv [iso Format.well_shaped Format.pattern Format.starts_with Format.matches].
    rewrite Dy0, Dy1, Dy2, Dy3, Dm0, Dm1, Dd0, Dd1, Dh0, Dh1, Dn0, Dn1, Ds0, Ds1.
    reflexivity. }
  assert (Fy : Format.year iso = 1900 + tm_year t) by exact Ny.
  assert (Fm : Format.month iso = tm_mon t + 1)
    by (cbv [iso Format.month substring Format.number Format.number_from]; lia).
  assert (Fd : Format.day iso = tm_mday t)
    by (cbv [iso Format.day substring Format.number Format.number_from]; lia).
  assert (Fh : Format.hour iso = tm_hour t)
    by (cbv [iso Format.hour substring Format.number Format.number_from]; lia).
  assert (Fn : Format.minute iso = tm_min t)
    by (cbv [iso Format.minute substring Format.number Format.number_from]; lia).
  assert (Fs : Format.second iso = tm_sec t)
    by (cbv [iso Format.second substring Format.number Format.number_from]; lia).
  repeat split; assumption || reflexivity.
Qed.

Lemma format_then_parse (t : tm) :
  1970 <= 1900 + tm_year t <= 2106 ->
  0 <= tm_mon t <= 11 ->
  1 <= tm_mday t <= nth (Z.to_nat (tm_mon t)) detail.mon_lengths 0 ->
  0 <= tm_hour t <= 23 ->
  0 <= tm_min t <= 59 ->
  0 <= tm_sec t <= 59 ->
  let iso := expand timestamp_format t in
  String.length iso = 20%nat /\
  detail.parse_timestamp iso =
    Returns (86400 * days_from_civil (1900 + tm_year t) (tm_mon t) (tm_mday t)
             + 3600 * tm_hour t + 60 * tm_min t + tm_sec t).
Proof.
  intros Hyear Hmon Hmday Hhour Hmin Hsec iso.
  destruct (expand_fields t Hyear Hmon Hmday Hhour Hmin Hsec)
    as (Hlen & Hshape & Fy & Fm & Fd & Fh & Fn & Fs).
  fold iso in Hlen, Hshape, Fy, Fm, Fd, Fh, Fn, Fs.
  split; [exact Hlen|].
  assert (Hmonth : Format.month iso - 1 = tm_mon t) by lia.
  rewrite (parse_timestamp_accepts iso Hshape).
  - unfold Format.epoch_seconds. now rewrite Hmonth, Fy, Fd, Fh, Fn, Fs.
  - apply fields_in_range_intro; unfold Format.last_day;
      rewrite ?Hmonth, ?Fy, ?Fd, ?Fh, ?Fn, ?Fs; try rewrite Fm; lia.
Qed.

Lemma substring_whole (s : string) : substring 0 (String.length s) s = s.
Proof.
  induction s as [|c s IH]; [reflexivity|]. simpl. now rewrite IH.
Qed.

Lemma seconds_of_day (r : Z) :
  0 <= r < 86400 ->
  0 <= r / 3600 <= 23 /\ 0 <= (r / 60) mod 60 <= 59 /\ 0 <= r mod 60 <= 59 /\
  3600 * (r / 3600) + 60 * ((r / 60) mod 60) + r mod 60 = r.
Proof.
  intros H. Z.div_mod_to_equations. lia.
Qed.

Lemma day_ok_unfold (d : Z) : day_ok d = date_ok d (civil_from_days d).
Proof. unfold day_ok. reflexivity. Qed.

Lemma date_ok_spec (days y m d : Z) :
  date_ok days (y, m, d) = true ->
  days_from_civil y m d = days /\
  1970 <= y <= 2106 /\ 0 <= m <= 11 /\
  1 <= d <= nth (Z.to_nat m) detail.mon_lengths 0 /\
  d <= days_in_month y m.
Proof.
  unfold date_ok. rewrite !andb_true_iff, !Z.leb_le, Z.eqb_eq. tauto.
Qed.

Lemma civil_from_days_uint32 (days : Z) :
  0 <= days <= 49710 ->
  exists y m d : Z,
    civil_from_days days = (y, m, d) /\
    days_from_civil y m d = days /\
    1970 <= y <= 2106 /\ 0 <= m <= 11 /\
    1 <= d <= nth (Z.to_nat m) detail.mon_lengths 0 /\
    d <= days_in_month y m.
Proof.
  intros Hdays. apply day_ok_in_range in Hdays. rewrite day_ok_unfold in Hdays.
  revert Hdays. generalize (civil_from_days days). intros [[y m] d] Hok.
  exists y, m, d. split; [reflexivity|]. now apply date_ok_spec.
Qed.

(** The broken-down time of a [uint32_t] number of seconds: [gmtime_r]
    does not fail, the fields are in the ranges the parser accepts, and
    they count back to the number of seconds. *)
Lemma gmtime_r_uint32 (v : Z) :
  0 <= v <= uint32_max ->
  exists t : tm,
    gmtime_r v = Some t /\
    1970 <= 1900 + tm_year t <= 2106 /\
    0 <= tm_mon t <= 11 /\
    1 <= tm_mday t <= nth (Z.to_nat (tm_mon t)) detail.mon_lengths 0 /\
    tm_mday t <= days_in_month (1900 + tm_year t) (tm_mon t) /\
    0 <= tm_hour t <= 23 /\
    0 <= tm_min t <= 59 /\
    0 <= tm_sec t <= 59 /\
    86400 * days_from_civil (1900 + tm_year t) (tm_mon t) (tm_mday t)
    + 3600 * tm_hour t + 60 * tm_min t + tm_sec t = v.
Proof.
  unfold uint32_max. intros Hrange.
  assert (Hdays : 0 <= v / 86400 <= 49710) by (Z.div_mod_to_equations; lia).
  assert (Hrem : 0 <= v mod 86400 < 86400) by (apply Z.mod_pos_bound; lia).
  destruct (seconds_of_day _ Hrem) as (Hhour & Hmin & Hsec & Hsum).
  pose proof (Z.div_mod v 86400 ltac:(lia)) as Hv.
  destruct (civil_from_days_uint32 _ Hdays) as (y & m & d & Hcivil & Hinv & Hy & Hm & Hd).
  unfold gmtime_r. rewrite Hcivil.
  assert (Hint : ((- int_max - 1 <=? y - 1900) && (y - 1900 <=? int_max))%bool = true)
    by (apply andb_true_intro; rewrite !Z.leb_le; unfold int_max; lia).
  rewrite Hint. eexists. split; [reflexivity|].
  cbn [tm_year tm_mon tm_mday tm_hour tm_min tm_sec].
  replace (1900 + (y - 1900)) with y by lia. rewrite Hinv.
  repeat split; lia.
Qed.

(** Every valid timestamp is formatted as a text of 20 characters, and
    that text parses to the timestamp it was made from. *)
Theorem to_iso_then_parse (t : Timestamp) :
  is_uint32 t ->
  valid t = true ->
  exists iso : string,
    to_iso t = Returns iso /\
    String.length iso = 20%nat /\
    Timestamp_of_string iso = Returns t.
Proof.
  unfold is_uint32, valid. intros Hrange Hvalid.
  destruct (gmtime_r_uint32 _ Hrange)
    as (broken_down & Hgm & Hyear & Hmon & Hmday & _ & Hhour & Hmin & Hsec & Hback).
  destruct (format_then_parse broken_down Hyear Hmon Hmday Hhour Hmin Hsec)
    as [Hlen Hparse].
  rewrite Hback in Hparse.
  exists (expand timestamp_format broken_down).
  split; [|split; [exact Hlen|]].
  - unfold to_iso, seconds_since_epoch, strftime. rewrite Hvalid, Hgm, Hlen.
    change (20 <? timestamp_length)%nat with true. cbv iota beta.
    rewrite <- Hlen. now rewrite substring_whole.
  - unfold Timestamp_of_string. rewrite Hparse. cbn [bind].
    rewrite (to_uint32_small _ Hrange). now destruct t.
Qed.

(** * Further properties of the parser *)

(** X1. [parse_timestamp] returns a value exactly for the texts whose
    first 20 characters have the fixed shape and whose fields pass the
    range checks, and the value is the number of seconds of the calendar
    time written; for every other text it throws [std::invalid_argument]
    with the one message. *)
Theorem parse_timestamp_returns_iff (str : string) (v : Z) :
  (detail.parse_timestamp str = Returns v <->
   Format.well_shaped str = true /\ Format.fields_in_range str = true /\
   v = Format.epoch_seconds str) /\
  (detail.parse_timestamp str = Throws (invalid_argument "can not parse timestamp") <->
   Format.well_shaped str = false \/ Format.fields_in_range str = false).
Proof.
  rewrite parse_timestamp_spec. fold detail.cannot_parse.
  destruct (Format.well_shaped str) eqn:Hshape;
    destruct (Format.fields_in_range str) eqn:Hrange; cbn [andb];
    try rewrite (timegm_fields str Hshape Hrange).
  - split; split.
    + intros [= <-]. auto.
    + intros (_ & _ & ->). reflexivity.
    + discriminate.
    + intros [H | H]; discriminate H.
  - split; split; try discriminate; auto.
    intros (_ & H & _). discriminate H.
  - split; split; try discriminate; auto.
    intros (H & _). discriminate H.
  - split; split; try discriminate; auto.
    intros (H & _). discriminate H.
Qed.

Lemma parse_timestamp_returns_iff_witness :
  detail.parse_timestamp "2000-02-29T12:00:00Z" = Returns 951825600.
Proof.
  apply (parse_timestamp_returns_iff "2000-02-29T12:00:00Z" 951825600).
  repeat split; vm_compute; reflexivity.
Defined.

(** X3. Only the first 20 characters of a text are looked at: whatever
    follows them does not change the result of [parse_timestamp]. *)
Theorem parse_timestamp_ignores_trailing (str rest : string) :
  (20 <= String.length str)%nat ->
  detail.parse_timestamp (str ++ rest) = detail.parse_timestamp str.
Proof.
  intros Hlen. rewrite !parse_timestamp_spec.
  twenty_chars str Hlen.
  cbv [append Format.well_shaped Format.pattern Format.starts_with
       Format.fields_in_range Format.tm_of Format.year Format.month Format.day
       Format.hour Format.minute Format.second substring].
  reflexivity.
Qed.

Lemma parse_timestamp_ignores_trailing_witness :
  detail.parse_timestamp ("2016-07-25T09:30:00Z" ++ " and more")
  = detail.parse_timestamp "2016-07-25T09:30:00Z".
Proof.
  apply (parse_timestamp_ignores_trailing "2016-07-25T09:30:00Z" " and more").
  simpl. lia.
Defined.

(** X5. Every value [parse_timestamp] returns lies between the seconds of
    1900-01-01T00:00:00Z and of 9999-12-31T23:59:60Z, so [timegm] never
    leaves the range of [time_t] on an accepted text. *)
Theorem parse_timestamp_value_bounds (str : string) (v : Z) :
  detail.parse_timestamp str = Returns v ->
  -2208988800 <= v <= 253402300800.
Proof.
  rewrite parse_timestamp_spec.
  destruct (Format.well_shaped str) eqn:Hshape; [|discriminate].
  destruct (Format.fields_in_range str) eqn:Hrange; [|discriminate].
  cbn [andb]. rewrite (timegm_fields str Hshape Hrange). intros [= <-].
  apply fields_bounds in Hshape.
  unfold Format.fields_in_range in Hrange.
  rewrite !andb_true_iff, !Z.leb_le in Hrange.
  unfold Format.epoch_seconds, days_from_civil.
  pose proof (day_of_year_bound (isleap (Format.year str))
                (Format.month str) (Format.day str)) as Hyday.
  assert (Hlo : -25567 <= days_before_year (Format.year str))
    by (apply days_before_year_bounds; lia).
  assert (Hhi : days_before_year (Format.year str) <= 2932167 \/
                Format.year str = 9999).
  { unfold days_before_year, leaps_thru_end_of. Z.div_mod_to_equations. lia. }
  destruct Hhi as [Hhi | H9999].
  - destruct (isleap (Format.year str)); lia.
  - rewrite H9999 in *.
    change (isleap 9999) with false in *.
    change (days_before_year 9999) with 2932532 in *. lia.
Qed.

Lemma parse_timestamp_value_bounds_witness :
  -2208988800 <= -2208988800 <= 253402300800 /\
  -2208988800 <= 253402300800 <= 253402300800.
Proof.
  split.
  - apply (parse_timestamp_value_bounds "1900-01-01T00:00:00Z"). vm_compute. reflexivity.
  - apply (parse_timestamp_value_bounds "9999-12-31T23:59:60Z"). vm_compute. reflexivity.
Defined.

(** X6. February 29th is accepted in every year; in a year that is not a
    leap year it is the same instant as March 1st at the same time of
    day. *)
Theorem parse_february_29_of_common_year (feb29 mar1 : string) :
  Format.well_shaped feb29 = true ->
  Format.well_shaped mar1 = true ->
  Format.fields_in_range mar1 = true ->
  isleap (Format.year mar1) = false ->
  Format.year feb29 = Format.year mar1 ->
  Format.month feb29 = 2 -> Format.day feb29 = 29 ->
  Format.month mar1 = 3 -> Format.day mar1 = 1 ->
  Format.hour feb29 = Format.hour mar1 ->
  Format.minute feb29 = Format.minute mar1 ->
  Format.second feb29 = Format.second mar1 ->
  exists v : Z,
    detail.parse_timestamp feb29 = Returns v /\
    detail.parse_timestamp mar1 = Returns v.
Proof.
  intros Hshape29 Hshape1 Hrange1 Hleap Hy Hm29 Hd29 Hm1 Hd1 Hh Hn Hs.
  assert (Hrange29 : Format.fields_in_range feb29 = true).
  { unfold Format.fields_in_range in *.
    rewrite !andb_true_iff, !Z.leb_le in *.
    rewrite Hy, Hm29, Hd29, Hh, Hn, Hs.
    change (Format.last_day 2) with 29. lia. }
  exists (Format.epoch_seconds mar1). split.
  - rewrite (parse_timestamp_accepts feb29 Hshape29 Hrange29). f_equal.
    unfold Format.epoch_seconds, days_from_civil.
    rewrite Hy, Hm29, Hd29, Hm1, Hd1, Hh, Hn, Hs, Hleap.
    change (nth (Z.to_nat (2 - 1)) (mon_yday false) 0) with 31.
    change (nth (Z.to_nat (3 - 1)) (mon_yday false) 0) with 59. lia.
  - apply (parse_timestamp_accepts mar1 Hshape1 Hrange1).
Qed.

Lemma parse_february_29_of_common_year_witness :
  exists v : Z,
    detail.parse_timestamp "2015-02-29T08:15:30Z" = Returns v /\
    detail.parse_timestamp "2015-03-01T08:15:30Z" = Returns v.
Proof.
  apply (parse_february_29_of_common_year
           "2015-02-29T08:15:30Z" "2015-03-01T08:15:30Z");
    vm_compute; reflexivity.
Defined.

(** X2. [parse_timestamp] never reads behind the terminating NUL of its
    argument, however short the text is, and never indexes [mon_lengths]
    outside its twelve elements: the checks in front stop it. *)
Theorem parse_timestamp_stays_in_bounds (str : string) :
  detail.parse_timestamp str <> Undefined /\
  Timestamp_of_string str <> Undefined /\
  (forall t : tm, detail.in_range t <> Undefined).
Proof.
  pose proof (parse_timestamp_defined str) as H.
  repeat split.
  - exact H.
  - unfold Timestamp_of_string.
    destruct (detail.parse_timestamp str); cbn [bind]; congruence.
  - intros t. rewrite in_range_pure. discriminate.
Qed.

(** * Further properties of [Timestamp] *)

(** X7. The constructor from an integer keeps the integer modulo 2^32:
    two integers give the same timestamp exactly when they differ by a
    multiple of 2^32, and the conversion back to [uint32_t] returns the
    integer exactly when it is a [uint32_t] value. *)
Theorem Timestamp_of_integer_wraps (v w : Z) :
  is_uint32 (Timestamp_of_integer v) /\
  (Timestamp_of_integer v = Timestamp_of_integer w <-> (v - w) mod 2 ^ 32 = 0) /\
  (operator_uint32_t (Timestamp_of_integer v) = v <-> 0 <= v <= uint32_max) /\
  Timestamp_of_integer (v + 2 ^ 32) = Timestamp_of_integer v.
Proof.
  split; [apply to_uint32_range|].
  unfold Timestamp_of_integer, operator_uint32_t, to_uint32, uint32_max.
  cbn [m_timestamp]. change (2 ^ 32) with 4294967296.
  repeat split.
  - intros [= H]. Z.div_mod_to_equations. lia.
  - intros H. f_equal. Z.div_mod_to_equations. lia.
  - Z.div_mod_to_equations. lia.
  - Z.div_mod_to_equations. lia.
  - intros H. apply Z.mod_small. lia.
  - f_equal. Z.div_mod_to_equations. lia.
Qed.

Lemma Timestamp_of_integer_wraps_witness :
  Timestamp_of_integer (-1) = Timestamp_of_integer 4294967295.
Proof.
  destruct (Timestamp_of_integer_wraps (-1) 4294967295) as (_ & [_ Hsame] & _).
  apply Hsame. reflexivity.
Defined.

(** X8. For differences of an integer type, on a timestamp that holds a
    [uint32_t] value: [operator-=] undoes [operator+=] of the same
    difference and the other way round, also across the wrap-around, and
    two additions are the addition of the sum. *)
Theorem operator_plus_minus_assign_compose (t : Timestamp) (a b : Z) :
  is_uint32 t ->
  integral_difference a -> integral_difference b -> integral_difference (a + b) ->
  operator_minus_assign (operator_plus_assign t a) a = t /\
  operator_plus_assign (operator_minus_assign t a) a = t /\
  operator_plus_assign (operator_plus_assign t a) b = operator_plus_assign t (a + b) /\
  operator_minus_assign (operator_minus_assign t a) b = operator_minus_assign t (a + b) /\
  operator_plus_assign t 0 = t.
Proof.
  unfold is_uint32, uint32_max. intros Hrange _ _ _.
  destruct t as [m]. cbn [m_timestamp] in Hrange.
  unfold operator_minus_assign, operator_plus_assign, to_uint32.
  cbn [m_timestamp]. change (2 ^ 32) with 4294967296.
  repeat split; f_equal; Z.div_mod_to_equations; lia.
Qed.

Lemma operator_plus_minus_assign_compose_witness :
  operator_minus_assign (operator_plus_assign end_of_time 10) 10 = end_of_time.
Proof.
  refine (proj1 (operator_plus_minus_assign_compose end_of_time 10 0 _ _ _ _)).
  - apply Timestamp_of_integer_is_uint32.
  - unfold integral_difference. change (2 ^ 63) with 9223372036854775808.
    change (2 ^ 32) with 4294967296. lia.
  - unfold integral_difference. change (2 ^ 63) with 9223372036854775808.
    change (2 ^ 32) with 4294967296. lia.
  - unfold integral_difference. change (2 ^ 63) with 9223372036854775808.
    change (2 ^ 32) with 4294967296. lia.
Defined.

(** X9. [operator+=] with a difference of 0 to 2^32 - 1: while the sum
    stays a [uint32_t] value it is stored as it is and the timestamp does
    not move back; once the sum passes 0xFFFFFFFF it is stored less 2^32
    and the timestamp lands strictly before where it was. *)
Theorem operator_plus_assign_overflow (t : Timestamp) (d : Z) :
  is_uint32 t ->
  0 <= d <= uint32_max ->
  (m_timestamp t + d <= uint32_max ->
   m_timestamp (operator_plus_assign t d) = m_timestamp t + d /\
   operator_le t (operator_plus_assign t d) = true) /\
  (uint32_max < m_timestamp t + d ->
   m_timestamp (operator_plus_assign t d) = m_timestamp t + d - 2 ^ 32 /\
   operator_lt (operator_plus_assign t d) t = true).
Proof.
  unfold is_uint32, uint32_max. intros Hrange Hd.
  unfold operator_le, operator_lt, operator_uint32_t, operator_plus_assign,
    to_uint32.
  cbn [m_timestamp]. change (2 ^ 32) with 4294967296.
  split; intros Hsum.
  - rewrite Z.mod_small by lia. split; [reflexivity|].
    apply negb_true_iff, Z.ltb_ge. lia.
  - assert (Hmod : (m_timestamp t + d) mod 4294967296
                   = m_timestamp t + d - 4294967296)
      by (Z.div_mod_to_equations; lia).
    rewrite Hmod. split; [reflexivity|]. apply Z.ltb_lt. lia.
Qed.

Lemma operator_plus_assign_overflow_witness :
  m_timestamp (operator_plus_assign end_of_time 1) = 0 /\
  operator_lt (operator_plus_assign end_of_time 1) end_of_time = true.
Proof.
  destruct (operator_plus_assign_overflow end_of_time 1) as [_ Hwrap].
  - apply Timestamp_of_integer_is_uint32.
  - unfold uint32_max. lia.
  - apply Hwrap. vm_compute. reflexivity.
Defined.

(** X10. Whatever constructors and operators a timestamp went through,
    the value it holds is a [uint32_t] value, and the two conversions
    into wider types return that same value. *)
Theorem constructed_is_uint32 (t : Timestamp) :
  constructed t ->
  is_uint32 t /\
  0 <= seconds_since_epoch t <= uint32_max /\
  operator_uint64_t t = operator_uint32_t t /\
  seconds_since_epoch t = operator_uint32_t t.
Proof.
  intros H.
  assert (Hrange : is_uint32 t).
  { induction H.
    - unfold is_uint32, uint32_max. simpl. lia.
    - apply Timestamp_of_integer_is_uint32.
    - eapply Timestamp_of_string_is_uint32; eassumption.
    - apply Timestamp_of_integer_is_uint32.
    - apply Timestamp_of_integer_is_uint32.
    - apply operator_plus_assign_is_uint32.
    - apply operator_minus_assign_is_uint32. }
  repeat split; try apply Hrange.
Qed.

Lemma constructed_is_uint32_witness :
  is_uint32 (operator_minus_assign (Timestamp_of_integer (-5)) 7).
Proof.
  apply (constructed_is_uint32 (operator_minus_assign (Timestamp_of_integer (-5)) 7)).
  apply constructed_minus_assign, constructed_of_integer.
Defined.

(** X11. The timestamp made from an accepted text holds the seconds of
    the calendar time modulo 2^32: exactly these seconds when they are a
    [uint32_t] value (1970-01-01T00:00:00Z to 2106-02-07T06:28:15Z), and
    it is the invalid timestamp exactly when the seconds are a multiple
    of 2^32. *)
Theorem Timestamp_of_string_wraps (str : string) (t : Timestamp) :
  Timestamp_of_string str = Returns t ->
  m_timestamp t = Format.epoch_seconds str mod 2 ^ 32 /\
  (m_timestamp t = Format.epoch_seconds str <->
   0 <= Format.epoch_seconds str <= uint32_max) /\
  (valid t = false <-> Format.epoch_seconds str mod 2 ^ 32 = 0).
Proof.
  unfold Timestamp_of_string. rewrite parse_timestamp_spec.
  destruct (Format.well_shaped str) eqn:Hshape; [|discriminate].
  destruct (Format.fields_in_range str) eqn:Hrange; [|discriminate].
  cbn [andb bind]. rewrite (timegm_fields str Hshape Hrange).
  intros [= <-]. cbn [m_timestamp]. unfold valid, to_uint32, uint32_max.
  cbn [m_timestamp]. rewrite negb_false_iff, Z.eqb_eq.
  change (2 ^ 32) with 4294967296.
  repeat split; try tauto.
  - Z.div_mod_to_equations. lia.
  - Z.div_mod_to_equations. lia.
  - intros Hsmall. apply Z.mod_small. lia.
Qed.

Lemma Timestamp_of_string_wraps_witness :
  valid {| m_timestamp := 0 |} = false /\
  Format.epoch_seconds "2106-02-07T06:28:16Z" = 4294967296.
Proof.
  destruct (Timestamp_of_string_wraps "2106-02-07T06:28:16Z" {| m_timestamp := 0 |})
    as (_ & _ & Hvalid).
  - vm_compute. reflexivity.
  - split; [apply Hvalid; vm_compute; reflexivity | vm_compute; reflexivity].
Defined.

(** What [to_iso] returns for a valid timestamp: the text [strftime]
    makes of the broken-down time of its value. *)
Lemma to_iso_valid (t : Timestamp) :
  is_uint32 t ->
  valid t = true ->
  exists broken_down : tm,
    to_iso t = Returns (expand timestamp_format broken_down) /\
    1970 <= 1900 + tm_year broken_down <= 2106 /\
    0 <= tm_mon broken_down <= 11 /\
    1 <= tm_mday broken_down
      <= nth (Z.to_nat (tm_mon broken_down)) detail.mon_lengths 0 /\
    tm_mday broken_down
      <= days_in_month (1900 + tm_year broken_down) (tm_mon broken_down) /\
    0 <= tm_hour broken_down <= 23 /\
    0 <= tm_min broken_down <= 59 /\
    0 <= tm_sec broken_down <= 59 /\
    86400 * days_from_civil (1900 + tm_year broken_down) (tm_mon broken_down)
              (tm_mday broken_down)
    + 3600 * tm_hour broken_down + 60 * tm_min broken_down + tm_sec broken_down
    = m_timestamp t.
Proof.
  unfold is_uint32, valid. intros Hrange Hvalid.
  destruct (gmtime_r_uint32 _ Hrange)
    as (broken_down & Hgm & Hyear & Hmon & Hmday & Hreal & Hhour & Hmin & Hsec & Hback).
  destruct (expand_fields broken_down Hyear Hmon Hmday Hhour Hmin Hsec)
    as (Hlen & _).
  exists broken_down. repeat split; try tauto.
  unfold to_iso, seconds_since_epoch, strftime. rewrite Hvalid, Hgm, Hlen.
  change (20 <? timestamp_length)%nat with true. cbv iota beta.
  rewrite <- Hlen. now rewrite substring_whole.
Qed.

(** * Further properties of the formatter *)

(** X12. [to_iso] does not fail on a timestamp that holds a [uint32_t]
    value: the result is empty for the invalid timestamp and otherwise a
    text of exactly 20 characters of the shape the parser asks for, which
    writes a date of the calendar in the years 1970 to 2106 at a time of
    day up to 23:59:59. *)
Theorem to_iso_text (t : Timestamp) :
  is_uint32 t ->
  exists iso : string,
    to_iso t = Returns iso /\
    (valid t = false -> iso = "") /\
    (valid t = true ->
     String.length iso = 20%nat /\
     Format.well_shaped iso = true /\
     1970 <= Format.year iso <= 2106 /\
     calendar_time iso).
Proof.
  intros Hrange. destruct (valid t) eqn:Hvalid.
  - destruct (to_iso_valid t Hrange Hvalid)
      as (broken_down & Hiso & Hyear & Hmon & Hmday & Hreal & Hhour & Hmin & Hsec & _).
    destruct (expand_fields broken_down Hyear Hmon Hmday Hhour Hmin Hsec)
      as (Hlen & Hshape & Fy & Fm & Fd & Fh & Fn & Fs).
    exists (expand timestamp_format broken_down).
    split; [exact Hiso|]. split; [discriminate|]. intros _.
    split; [exact Hlen|]. split; [exact Hshape|].
    unfold calendar_time. rewrite Fy, Fm, Fd, Fh, Fn, Fs.
    replace (tm_mon broken_down + 1 - 1) with (tm_mon broken_down) by lia.
    repeat split; lia.
  - exists "". unfold to_iso. unfold valid in Hvalid. rewrite Hvalid.
    repeat split; discriminate.
Qed.

Lemma to_iso_text_witness :
  exists iso : string,
    to_iso end_of_time = Returns iso /\ String.length iso = 20%nat.
Proof.
  destruct (to_iso_text end_of_time) as (iso & Hiso & _ & Hvalid).
  - apply Timestamp_of_integer_is_uint32.
  - exists iso. split; [exact Hiso|]. apply Hvalid. reflexivity.
Defined.

(** X13. Formatting a valid timestamp and parsing the text gives the
    timestamp back, for every value from 1 to 0xFFFFFFFF. *)
Theorem to_iso_parse_roundtrip (t : Timestamp) :
  is_uint32 t ->
  valid t = true ->
  (iso <- to_iso t ;; Timestamp_of_string iso) = Returns t.
Proof.
  intros Hrange Hvalid.
  destruct (to_iso_then_parse t Hrange Hvalid) as (iso & Hiso & _ & Hparse).
  rewrite Hiso. exact Hparse.
Qed.

Lemma to_iso_parse_roundtrip_witness :
  (iso <- to_iso end_of_time ;; Timestamp_of_string iso) = Returns end_of_time.
Proof.
  apply (to_iso_parse_roundtrip end_of_time).
  - apply Timestamp_of_integer_is_uint32.
  - reflexivity.
Defined.

(** X14. Two timestamps with the same text are the same timestamp:
    [to_iso] loses nothing of a [uint32_t] value. *)
Theorem to_iso_injective (a b : Timestamp) :
  is_uint32 a -> is_uint32 b ->
  to_iso a = to_iso b ->
  a = b.
Proof.
  intros Ha Hb Heq.
  destruct (valid a) eqn:Hva; destruct (valid b) eqn:Hvb.
  - destruct (to_iso_then_parse a Ha Hva) as (ia & Hia & _ & Hpa).
    destruct (to_iso_then_parse b Hb Hvb) as (ib & Hib & _ & Hpb).
    rewrite Hia, Hib in Heq. injection Heq as ->. congruence.
  - destruct (to_iso_then_parse a Ha Hva) as (ia & Hia & Hlen & _).
    unfold to_iso in Heq at 2. unfold valid in Hvb. rewrite Hvb in Heq.
    rewrite Hia in Heq. injection Heq as ->. discriminate Hlen.
  - destruct (to_iso_then_parse b Hb Hvb) as (ib & Hib & Hlen & _).
    unfold to_iso in Heq at 1. unfold valid in Hva. rewrite Hva in Heq.
    rewrite Hib in Heq. injection Heq as <-. discriminate Hlen.
  - unfold valid in Hva, Hvb. apply negb_false_iff, Z.eqb_eq in Hva, Hvb.
    apply Timestamp_eq. congruence.
Qed.

Lemma to_iso_injective_witness :
  Timestamp_of_integer (1 + 2 ^ 32) = start_of_time.
Proof.
  apply (to_iso_injective (Timestamp_of_integer (1 + 2 ^ 32)) start_of_time).
  - apply Timestamp_of_integer_is_uint32.
  - apply Timestamp_of_integer_is_uint32.
  - vm_compute. reflexivity.
Defined.

Lemma padding_length (count : nat) (c : ascii) :
  String.length (padding count c) = count.
Proof. induction count as [|n IH]; [reflexivity|]. simpl. now rewrite IH. Qed.

Lemma append_length (a b : string) :
  String.length (a ++ b) = (String.length a + String.length b)%nat.
Proof. induction a as [|c a IH]; [reflexivity|]. simpl. now rewrite IH. Qed.

(** X15. [operator<<] on a stream that is good and a timestamp with a
    [uint32_t] value: the text of [to_iso] is appended behind what was
    written, padded with the fill character to the field width, in front
    of the text or, with the adjustment to the left, behind it; so the
    larger of the field width and the length of the text is the number of
    characters appended, 20 or none when the field width is 0.  The field
    width is 0 afterwards and the stream stays good.  A stream that is not
    good is left as it is. *)
Theorem operator_shl_appends (out : ostream) (t : Timestamp) :
  is_uint32 t ->
  exists (iso : string) (after : ostream),
    to_iso t = Returns iso /\
    operator_shl out t = Returns after /\
    (good out = false -> after = out) /\
    (good out = true ->
     let pad := padding (width out - String.length iso) (fill out) in
     written after
     = (written out ++ (if adjust_left out then iso ++ pad else pad ++ iso))%string /\
     String.length (written after)
     = (String.length (written out) + Nat.max (width out) (String.length iso))%nat /\
     String.length iso = (if valid t then 20 else 0)%nat /\
     width after = 0%nat /\ good after = true /\
     fill after = fill out /\ adjust_left after = adjust_left out).
Proof.
  intros Hrange.
  assert (Hiso : exists iso, to_iso t = Returns iso /\
                   String.length iso = (if valid t then 20 else 0)%nat).
  { destruct (valid t) eqn:Hvalid.
    - destruct (to_iso_then_parse t Hrange Hvalid) as (iso & Hiso & Hlen & _).
      exists iso. split; assumption.
    - exists "". unfold to_iso. unfold valid in Hvalid. rewrite Hvalid.
      split; reflexivity. }
  destruct Hiso as (iso & Hiso & Hlen).
  exists iso, (insert_string out iso).
  split; [exact Hiso|]. split; [unfold operator_shl; now rewrite Hiso|].
  unfold insert_string. split; intros Hgood; rewrite Hgood; [reflexivity|].
  cbn [written width good fill adjust_left].
  repeat split; try assumption.
  rewrite append_length. f_equal.
  destruct (adjust_left out); rewrite append_length, padding_length; lia.
Qed.

Lemma operator_shl_appends_witness :
  exists (iso : string) (after : ostream),
    operator_shl (mk_ostream "t=" 25 "." false true) start_of_time = Returns after /\
    written after = "t=.....1970-01-01T00:00:01Z".
Proof.
  destruct (operator_shl_appends (mk_ostream "t=" 25 "." false true) start_of_time)
    as (iso & after & Hiso & Hout & _ & Hgood).
  - apply Timestamp_of_integer_is_uint32.
  - exists iso, after. split; [exact Hout|].
    destruct (Hgood eq_refl) as (Hwritten & _).
    rewrite Hwritten. vm_compute in Hiso. injection Hiso as <-. reflexivity.
Defined.

(** * The order of the calendar *)

(** The table look-ups with a closed index, and the tests they stand
    under, are evaluated. *)
Ltac eval_tables :=
  repeat match goal with
         | H : context [nth (Z.to_nat ?i) ?l 0] |- _ =>
             let v := eval vm_compute in (nth (Z.to_nat i) l 0) in
             change (nth (Z.to_nat i) l 0) with v in H
         | |- context [nth (Z.to_nat ?i) ?l 0] =>
             let v := eval vm_compute in (nth (Z.to_nat i) l 0) in
             change (nth (Z.to_nat i) l 0) with v
         | H : context [if ?c then _ else _] |- _ =>
             let v := eval vm_compute in c in
             change c with v in H; cbv iota in H
         | |- context [if ?c then _ else _] =>
             let v := eval vm_compute in c in
             change c with v; cbv iota
         end.

Lemma month_cases (m : Z) :
  0 <= m <= 11 ->
  m = 0 \/ m = 1 \/ m = 2 \/ m = 3 \/ m = 4 \/ m = 5 \/
  m = 6 \/ m = 7 \/ m = 8 \/ m = 9 \/ m = 10 \/ m = 11.
Proof. lia. Qed.

(** Within a year a date of the calendar in an earlier month is an
    earlier day of the year. *)
Lemma day_of_year_increases (y m1 d1 m2 d2 : Z) :
  0 <= m1 -> m1 < m2 -> m2 <= 11 ->
  d1 <= days_in_month y m1 ->
  1 <= d2 ->
  nth (Z.to_nat m1) (mon_yday (isleap y)) 0 + (d1 - 1)
  < nth (Z.to_nat m2) (mon_yday (isleap y)) 0 + (d2 - 1).
Proof.
  intros H0 H12 H11 Hd1 Hd2. unfold days_in_month in Hd1.
  destruct (isleap y).
  all: destruct (month_cases m1 ltac:(lia)) as [-> | Hc1];
    repeat (destruct Hc1 as [-> | Hc1]); try subst m1.
  all: destruct (month_cases m2 ltac:(lia)) as [-> | Hc2];
    repeat (destruct Hc2 as [-> | Hc2]); try subst m2; try lia.
  all: eval_tables; lia.
Qed.

(** A year has 365 days, a leap year 366, and the first day of a later
    year comes after them. *)
Lemma days_before_year_increases (y1 y2 : Z) :
  y1 < y2 ->
  days_before_year y1 + (if isleap y1 then 366 else 365) <= days_before_year y2.
Proof.
  intros H. unfold days_before_year, leaps_thru_end_of, isleap.
  destruct (Z.eqb_spec (y1 mod 4) 0); destruct (Z.eqb_spec (y1 mod 100) 0);
    destruct (Z.eqb_spec (y1 mod 400) 0); cbn [andb orb negb];
    Z.div_mod_to_equations; lia.
Qed.

Lemma days_in_month_le_mon_lengths (y m : Z) :
  days_in_month y m <= nth (Z.to_nat m) detail.mon_lengths 0.
Proof.
  unfold days_in_month.
  destruct (m =? 1) eqn:Hm; cbn [andb]; [|lia].
  apply Z.eqb_eq in Hm. subst m.
  destruct (negb (isleap y)); eval_tables; lia.
Qed.

(** A date of the calendar in front of another date is an earlier day. *)
Lemma days_from_civil_increases (y1 m1 d1 y2 m2 d2 : Z) :
  0 <= m1 <= 11 -> 0 <= m2 <= 11 ->
  1 <= d1 <= days_in_month y1 m1 ->
  1 <= d2 ->
  y1 < y2 \/ (y1 = y2 /\ (m1 < m2 \/ (m1 = m2 /\ d1 < d2))) ->
  days_from_civil y1 m1 d1 < days_from_civil y2 m2 d2.
Proof.
  intros Hm1 Hm2 Hd1 Hd2 Horder. unfold days_from_civil.
  destruct Horder as [Hy | [<- [Hm | [<- Hd]]]].
  - pose proof (days_before_year_increases y1 y2 Hy) as Hstep.
    pose proof (day_of_year_bound (isleap y1) (m1 + 1) d1) as Hbound.
    unfold Format.last_day in Hbound.
    replace (m1 + 1 - 1) with m1 in Hbound by lia.
    pose proof (days_in_month_le_mon_lengths y1 m1) as Hle.
    pose proof (mon_yday_bounds (isleap y2) (Z.to_nat m2)) as Hpos.
    destruct (isleap y1); lia.
  - pose proof (day_of_year_increases y1 m1 d1 m2 d2). lia.
  - lia.
Qed.

(** Two dates of the calendar on the same day are the same date. *)
Lemma days_from_civil_injective (y1 m1 d1 y2 m2 d2 : Z) :
  0 <= m1 <= 11 -> 0 <= m2 <= 11 ->
  1 <= d1 <= days_in_month y1 m1 ->
  1 <= d2 <= days_in_month y2 m2 ->
  days_from_civil y1 m1 d1 = days_from_civil y2 m2 d2 ->
  y1 = y2 /\ m1 = m2 /\ d1 = d2.
Proof.
  intros Hm1 Hm2 Hd1 Hd2 Heq.
  destruct (Z.lt_trichotomy y1 y2) as [Hy | [Hy | Hy]];
    [pose proof (days_from_civil_increases y1 m1 d1 y2 m2 d2); lia | |
     pose proof (days_from_civil_increases y2 m2 d2 y1 m1 d1); lia].
  destruct (Z.lt_trichotomy m1 m2) as [Hm | [Hm | Hm]];
    [pose proof (days_from_civil_increases y1 m1 d1 y2 m2 d2); lia | |
     pose proof (days_from_civil_increases y2 m2 d2 y1 m1 d1); lia].
  subst. unfold days_from_civil in Heq. lia.
Qed.

(** [civil_from_days] undoes [days_from_civil] on the dates of the
    calendar that a [uint32_t] number of seconds reaches. *)
Lemma civil_from_days_of_date (y m d : Z) :
  0 <= m <= 11 ->
  1 <= d <= days_in_month y m ->
  0 <= days_from_civil y m d <= 49710 ->
  civil_from_days (days_from_civil y m d) = (y, m, d).
Proof.
  intros Hm Hd Hdays.
  destruct (civil_from_days_uint32 _ Hdays)
    as (y' & m' & d' & Hcivil & Hinv & _ & Hm' & Hd' & Hreal).
  rewrite Hcivil.
  destruct (days_from_civil_injective y' m' d' y m d) as (-> & -> & ->);
    try assumption; try lia.
  reflexivity.
Qed.

(** The seconds of two accepted texts, the first a date of the calendar in
    front of the second in the order of the fields. *)
Lemma epoch_seconds_increases (a b : string) :
  Format.well_shaped a = true -> Format.fields_in_range a = true ->
  Format.well_shaped b = true -> Format.fields_in_range b = true ->
  Format.day a <= days_in_month (Format.year a) (Format.month a - 1) ->
  before (fields a) (fields b) ->
  Format.epoch_seconds a <= Format.epoch_seconds b /\
  (Format.second a <= 59 -> Format.epoch_seconds a < Format.epoch_seconds b).
Proof.
  intros Hsa Hra Hsb Hrb Hreal Hbefore.
  apply fields_bounds in Hsa, Hsb.
  unfold Format.fields_in_range in Hra, Hrb.
  rewrite !andb_true_iff, !Z.leb_le in Hra, Hrb.
  unfold Format.epoch_seconds.
  cbn [before fields] in Hbefore.
  assert (Hdate :
    (Format.year a < Format.year b \/
     (Format.year a = Format.year b /\
      (Format.month a - 1 < Format.month b - 1 \/
       (Format.month a - 1 = Format.month b - 1 /\ Format.day a < Format.day b))))
    \/ (Format.year a = Format.year b /\ Format.month a = Format.month b /\
        Format.day a = Format.day b)) by lia.
  destruct Hdate as [Hdate | (Hy & Hm & Hd)].
  - pose proof (days_from_civil_increases
                  (Format.year a) (Format.month a - 1) (Format.day a)
                  (Format.year b) (Format.month b - 1) (Format.day b)) as Hlt.
    lia.
  - rewrite Hy, Hm, Hd in *. lia.
Qed.

(** X16. The parser keeps the order of the calendar: of two accepted
    texts, the first a date of the calendar and in front of the second
    field by field, the first never parses to the larger value, and to a
    strictly smaller one unless its second is 60. *)
Theorem parse_timestamp_increases (a b : string) (va vb : Z) :
  detail.parse_timestamp a = Returns va ->
  detail.parse_timestamp b = Returns vb ->
  Format.day a <= days_in_month (Format.year a) (Format.month a - 1) ->
  before (fields a) (fields b) ->
  va <= vb /\ (Format.second a <= 59 -> va < vb).
Proof.
  rewrite !parse_timestamp_spec.
  destruct (Format.well_shaped a) eqn:Hsa; [|discriminate].
  destruct (Format.fields_in_range a) eqn:Hra; [|discriminate].
  destruct (Format.well_shaped b) eqn:Hsb; [|discriminate].
  destruct (Format.fields_in_range b) eqn:Hrb; [|discriminate].
  cbn [andb]. rewrite (timegm_fields a Hsa Hra), (timegm_fields b Hsb Hrb).
  intros [= <-] [= <-]. now apply epoch_seconds_increases.
Qed.

Lemma parse_timestamp_increases_witness :
  1456790399 < 1456790400.
Proof.
  apply (parse_timestamp_increases
           "2016-02-29T23:59:59Z" "2016-03-01T00:00:00Z" 1456790399 1456790400);
    try (vm_compute; reflexivity).
  - vm_compute. discriminate.
  - cbn [before fields]. right. split; [reflexivity|]. left.
    vm_compute. reflexivity.
  - vm_compute. discriminate.
Defined.

(** The texts of the years 1970 to 2105 have seconds that are [uint32_t]
    values. *)
Lemma epoch_seconds_is_uint32 (str : string) :
  Format.well_shaped str = true -> Format.fields_in_range str = true ->
  1970 <= Format.year str <= 2105 ->
  0 <= Format.epoch_seconds str <= uint32_max.
Proof.
  intros Hshape Hrange Hyear. apply fields_bounds in Hshape.
  unfold Format.fields_in_range in Hrange.
  rewrite !andb_true_iff, !Z.leb_le in Hrange.
  unfold Format.epoch_seconds, days_from_civil, uint32_max.
  pose proof (day_of_year_bound (isleap (Format.year str))
                (Format.month str) (Format.day str)) as Hyday.
  assert (Hdby : 0 <= days_before_year (Format.year str) <= 49308).
  { unfold days_before_year, leaps_thru_end_of. Z.div_mod_to_equations. lia. }
  destruct (isleap (Format.year str)); lia.
Qed.

Lemma before_trichotomy (a b : string) :
  before (fields a) (fields b) \/ fields a = fields b \/
  before (fields b) (fields a).
Proof.
  assert (Hsame :
    (Format.year a = Format.year b /\ Format.month a = Format.month b /\
     Format.day a = Format.day b /\ Format.hour a = Format.hour b /\
     Format.minute a = Format.minute b /\ Format.second a = Format.second b) ->
    fields a = fields b).
  { unfold fields. intros (E1 & E2 & E3 & E4 & E5 & E6).
    now rewrite E1, E2, E3, E4, E5, E6. }
  cbn [before fields]. cbn [before fields] in Hsame.
  destruct (Z.lt_trichotomy (Format.year a) (Format.year b)) as [?|[?|?]];
    [lia | | lia].
  destruct (Z.lt_trichotomy (Format.month a) (Format.month b)) as [?|[?|?]];
    [lia | | lia].
  destruct (Z.lt_trichotomy (Format.day a) (Format.day b)) as [?|[?|?]];
    [lia | | lia].
  destruct (Z.lt_trichotomy (Format.hour a) (Format.hour b)) as [?|[?|?]];
    [lia | | lia].
  destruct (Z.lt_trichotomy (Format.minute a) (Format.minute b)) as [?|[?|?]];
    [lia | | lia].
  destruct (Z.lt_trichotomy (Format.second a) (Format.second b)) as [?|[?|?]];
    [lia | | lia].
  right. left. apply Hsame. lia.
Qed.

Lemma epoch_seconds_of_fields (a b : string) :
  fields a = fields b -> Format.epoch_seconds a = Format.epoch_seconds b.
Proof.
  unfold fields, Format.epoch_seconds. intros [= -> -> -> -> -> ->]. reflexivity.
Qed.

(** X17. For dates of the calendar in the years 1970 to 2105, at times of
    day up to 23:59:59, the order of the timestamps is the order of the
    calendar: one timestamp is less than the other exactly when its text
    comes first field by field, and they are equal exactly when the
    fields are the same. *)
Theorem Timestamp_order_is_calendar_order (a b : string) (ta tb : Timestamp) :
  Timestamp_of_string a = Returns ta ->
  Timestamp_of_string b = Returns tb ->
  calendar_time a -> calendar_time b ->
  1970 <= Format.year a <= 2105 -> 1970 <= Format.year b <= 2105 ->
  (operator_lt ta tb = true <-> before (fields a) (fields b)) /\
  (operator_eq ta tb = true <-> fields a = fields b).
Proof.
  unfold Timestamp_of_string. rewrite !parse_timestamp_spec.
  destruct (Format.well_shaped a) eqn:Hsa; [|discriminate].
  destruct (Format.fields_in_range a) eqn:Hra; [|discriminate].
  destruct (Format.well_shaped b) eqn:Hsb; [|discriminate].
  destruct (Format.fields_in_range b) eqn:Hrb; [|discriminate].
  cbn [andb bind]. rewrite (timegm_fields a Hsa Hra), (timegm_fields b Hsb Hrb).
  intros [= <-] [= <-] Hca Hcb Hya Hyb.
  unfold operator_lt, operator_eq, operator_uint32_t. cbn [m_timestamp].
  rewrite !to_uint32_small by (now apply epoch_seconds_is_uint32).
  rewrite Z.ltb_lt, Z.eqb_eq.
  destruct Hca as (_ & [_ Hda] & _ & _ & Hseca).
  destruct Hcb as (_ & [_ Hdb] & _ & _ & Hsecb).
  pose proof (epoch_seconds_increases a b Hsa Hra Hsb Hrb Hda) as Hab.
  pose proof (epoch_seconds_increases b a Hsb Hrb Hsa Hra Hdb) as Hba.
  pose proof (epoch_seconds_of_fields a b) as Heq.
  destruct (before_trichotomy a b) as [H | [H | H]].
  - specialize (Hab H). split; split.
    + intros _. exact H.
    + intros _. lia.
    + intros Hsame. exfalso. lia.
    + exact Heq.
  - specialize (Heq H). split; split.
    + intros Hlt. exfalso. lia.
    + intros Hb. specialize (Hab Hb). exfalso. lia.
    + intros _. exact H.
    + intros _. exact Heq.
  - specialize (Hba H). split; split.
    + intros Hlt. exfalso. lia.
    + intros Hb. specialize (Hab Hb). exfalso. lia.
    + intros Hsame. exfalso. lia.
    + exact Heq.
Qed.

Lemma Timestamp_order_is_calendar_order_witness :
  operator_lt {| m_timestamp := 1456790399 |} {| m_timestamp := 1456790400 |} = true.
Proof.
  refine (proj2 (proj1 (Timestamp_order_is_calendar_order
                          "2016-02-29T23:59:59Z" "2016-03-01T00:00:00Z"
                          {| m_timestamp := 1456790399 |}
                          {| m_timestamp := 1456790400 |} _ _ _ _ _ _)) _).
  - vm_compute. reflexivity.
  - vm_compute. reflexivity.
  - unfold calendar_time. vm_compute. repeat split; discriminate.
  - unfold calendar_time. vm_compute. repeat split; discriminate.
  - vm_compute. split; discriminate.
  - vm_compute. split; discriminate.
  - cbn [before fields]. right. split; [reflexivity|]. left.
    vm_compute. reflexivity.
Defined.

(** * From a text to the timestamp and back *)

Lemma code_injective (a b : ascii) : code a = code b -> a = b.
Proof.
  unfold code. intros H. apply N2Z.inj in H.
  rewrite <- (ascii_N_embedding a), <- (ascii_N_embedding b). now rewrite H.
Qed.

Lemma digit_char_of_code (c : ascii) : digit_char (code c - code "0") = c.
Proof.
  unfold digit_char.
  replace (code "0" + (code c - code "0")) with (code c) by lia.
  unfold code. rewrite N2Z.id. apply ascii_N_embedding.
Qed.

Lemma two_digits_of_chars (a b : ascii) :
  is_digit a = true -> is_digit b = true ->
  two_digits (10 * (code a - code "0") + (code b - code "0"))
  = String a (String b EmptyString).
Proof.
  intros Ha Hb. apply is_digit_value in Ha, Hb. unfold two_digits.
  replace ((10 * (code a - code "0") + (code b - code "0")) / 10)
    with (code a - code "0") by (Z.div_mod_to_equations; lia).
  replace ((10 * (code a - code "0") + (code b - code "0")) mod 10)
    with (code b - code "0") by (Z.div_mod_to_equations; lia).
  now rewrite !digit_char_of_code.
Qed.

Lemma decimal_of_chars (a b c d : ascii) :
  is_digit a = true -> is_digit b = true ->
  is_digit c = true -> is_digit d = true ->
  1970 <= Format.number (String a (String b (String c (String d EmptyString))))
       <= 2106 ->
  decimal (Format.number (String a (String b (String c (String d EmptyString)))))
  = String a (String b (String c (String d EmptyString))).
Proof.
  intros Ha Hb Hc Hd Hyear.
  destruct (year_spec _ Hyear) as (a' & b' & c' & d' & E & Da & Db & Dc & Dd & N).
  rewrite E.
  apply is_digit_value in Ha, Hb, Hc, Hd, Da, Db, Dc, Dd.
  cbv [Format.number Format.number_from] in N.
  assert (code a' = code a /\ code b' = code b /\
          code c' = code c /\ code d' = code d) as (Ea & Eb & Ec & Ed) by lia.
  apply code_injective in Ea, Eb, Ec, Ed. now subst.
Qed.

(** The text [strftime] makes of the fields of a text of the fixed shape
    is that text. *)
Lemma expand_of_fields (str : string) (t : tm) :
  String.length str = 20%nat ->
  Format.well_shaped str = true ->
  1970 <= Format.year str <= 2106 ->
  1900 + tm_year t = Format.year str ->
  tm_mon t + 1 = Format.month str ->
  tm_mday t = Format.day str ->
  tm_hour t = Format.hour str ->
  tm_min t = Format.minute str ->
  tm_sec t = Format.second str ->
  expand timestamp_format t = str.
Proof.
  intros Hlen Hshape Hyear Ey Em Ed Eh En Es.
  assert (Hlen' : (20 <= String.length str)%nat) by lia.
  twenty_chars str Hlen'.
  destruct str; [|simpl in Hlen; lia]. clear Hlen.
  cbv [Format.well_shaped Format.pattern Format.starts_with Format.matches] in Hshape.
  repeat match type of Hshape with
         | (_ && _)%bool = true =>
             let D := fresh "D" in apply andb_prop in Hshape as [D Hshape]
         end.
  repeat match goal with
         | D : Ascii.eqb _ _ = true |- _ => apply Ascii.eqb_eq in D; subst
         end.
  unfold timestamp_format.
  cbn [expand Ascii.eqb Bool.eqb conversion].
  rewrite Ey, Em, Ed, Eh, En, Es.
  cbv [Format.month Format.day Format.hour Format.minute Format.second
       Format.number Format.number_from substring].
  replace (10 * 0) with 0 by reflexivity. cbn [Z.add].
  rewrite !two_digits_of_chars by assumption.
  unfold Format.year in *. cbv [substring] in *.
  rewrite decimal_of_chars by assumption.
  reflexivity.
Qed.

Lemma epoch_seconds_after_2106 (str : string) :
  Format.well_shaped str = true -> Format.fields_in_range str = true ->
  2107 <= Format.year str ->
  uint32_max < Format.epoch_seconds str.
Proof.
  intros Hshape Hrange Hyear. apply fields_bounds in Hshape.
  unfold Format.fields_in_range in Hrange.
  rewrite !andb_true_iff, !Z.leb_le in Hrange.
  unfold Format.epoch_seconds, days_from_civil, uint32_max.
  pose proof (day_of_year_bound (isleap (Format.year str))
                (Format.month str) (Format.day str)) as Hyday.
  assert (Hdby : 50038 <= days_before_year (Format.year str)).
  { unfold days_before_year, leaps_thru_end_of. Z.div_mod_to_equations. lia. }
  destruct (isleap (Format.year str)); lia.
Qed.

(** X18. A text of 20 characters that writes a date of the calendar, at a
    time of day up to 23:59:59, from 1970-01-01T00:00:01Z to
    2106-02-07T06:28:15Z, is what [to_iso] returns for the timestamp made
    from it. *)
Theorem parse_to_iso_roundtrip (str : string) (t : Timestamp) :
  String.length str = 20%nat ->
  Timestamp_of_string str = Returns t ->
  calendar_time str ->
  0 < Format.epoch_seconds str <= uint32_max ->
  valid t = true /\ to_iso t = Returns str.
Proof.
  intros Hlen Hparse Hcal Hsecs. revert Hparse.
  unfold Timestamp_of_string. rewrite parse_timestamp_spec.
  destruct (Format.well_shaped str) eqn:Hshape; [|discriminate].
  destruct (Format.fields_in_range str) eqn:Hrange; [|discriminate].
  cbn [andb bind]. rewrite (timegm_fields str Hshape Hrange).
  intros [= <-].
  rewrite to_uint32_small by lia.
  assert (Hyear : 1970 <= Format.year str <= 2106).
  { split.
    - destruct (Z_lt_le_dec (Format.year str) 1970) as [Hlt|]; [|assumption].
      destruct (epoch_seconds_before_epoch str Hshape Hrange) as [[_ Hle] _]; lia.
    - destruct (Z_lt_le_dec 2106 (Format.year str)) as [Hlt|]; [|assumption].
      pose proof (epoch_seconds_after_2106 str Hshape Hrange). lia. }
  pose proof (fields_bounds str Hshape) as (_ & _ & _ & Hh & Hn & Hs).
  destruct Hcal as (Hmonth & Hday & Hhour & Hminute & Hsecond).
  set (days := days_from_civil (Format.year str) (Format.month str - 1)
                 (Format.day str)).
  set (time := 3600 * Format.hour str + 60 * Format.minute str + Format.second str).
  assert (Hv : Format.epoch_seconds str = 86400 * days + time)
    by (unfold Format.epoch_seconds, days, time; lia).
  assert (Htime : 0 <= time < 86400) by (unfold time; lia).
  assert (Hdiv : Format.epoch_seconds str / 86400 = days)
    by (rewrite Hv; Z.div_mod_to_equations; lia).
  assert (Hmod : Format.epoch_seconds str mod 86400 = time)
    by (rewrite Hv; Z.div_mod_to_equations; lia).
  assert (Hdays : 0 <= days <= 49710) by (unfold uint32_max in Hsecs; lia).
  assert (Hvalid : negb (Format.epoch_seconds str =? 0) = true)
    by (apply negb_true_iff, Z.eqb_neq; lia).
  split; [exact Hvalid|].
  unfold to_iso, seconds_since_epoch. cbn [m_timestamp]. rewrite Hvalid.
  unfold gmtime_r. rewrite Hdiv, Hmod. unfold days at 1.
  rewrite civil_from_days_of_date by (fold days; lia).
  assert (Hint : ((- int_max - 1 <=? Format.year str - 1900)
                  && (Format.year str - 1900 <=? int_max))%bool = true)
    by (apply andb_true_intro; rewrite !Z.leb_le; unfold int_max; lia).
  rewrite Hint.
  match goal with |- context [strftime _ _ ?x] => set (broken_down := x) end.
  assert (Hexpand : expand timestamp_format broken_down = str).
  { apply expand_of_fields; try assumption;
      cbn [broken_down tm_year tm_mon tm_mday tm_hour tm_min tm_sec];
      unfold time; Z.div_mod_to_equations; lia. }
  unfold strftime. rewrite Hexpand, Hlen.
  change (20 <? timestamp_length)%nat with true. cbv iota beta.
  rewrite <- Hlen. now rewrite substring_whole.
Qed.

Lemma parse_to_iso_roundtrip_witness :
  to_iso {| m_timestamp := 951825600 |} = Returns "2000-02-29T12:00:00Z".
Proof.
  refine (proj2 (parse_to_iso_roundtrip "2000-02-29T12:00:00Z"
                   {| m_timestamp := 951825600 |} _ _ _ _)).
  - reflexivity.
  - vm_compute. reflexivity.
  - unfold calendar_time. vm_compute. repeat split; discriminate.
  - vm_compute. split; [reflexivity | discriminate].
Defined.

Lemma parse_rejects_years_before_1900_witness :
  detail.parse_timestamp "1899-12-31T23:59:59Z" = Throws detail.cannot_parse.
Proof.
  apply (parse_rejects_years_before_1900 "1899-12-31T23:59:59Z").
  vm_compute. reflexivity.
Defined.
